(** * PDF question answering chatbot: the orchestration layer

    A shallow embedding of [document_processor.py], [vector_store.py],
    [llm_handler.py] and [chatbot.py].  The four classes are glue around
    third-party libraries (a PDF loader, a text splitter, a vector database
    client, an LLM client and a conversation memory).  The classes are
    embedded method by method; the libraries are an interface, [Libraries],
    whose operations act on an abstract world [W] and may raise.  What a
    property needs to know about a library is stated as a law of that
    library, separately from the code ([ChromaLaws], [MemoryLaws]).  A small
    executable implementation of the interface, [Ref], instantiates the
    development on concrete inputs.

    Logging calls have no effect on any value or field and are left out,
    and so are the methods no property below involves
    ([load_vector_store], [get_vector_store], [generate_response],
    [model_info]). *)

From Stdlib Require Import ZArith Ascii String Init.Byte DecimalString.
From stdpp Require Import base option list strings gmap.

Local Open Scope string_scope.
Local Open Scope Z_scope.
Local Open Scope list_scope.

(** ** Python values shared by all modules *)

(** An exception object: its class name and [str(e)]. *)
Record Exception : Type := mkException { exc_class : string; exc_str : string }.

Definition ValueError (msg : string) : Exception :=
  {| exc_class := "ValueError"; exc_str := msg |}.

(** The result of running a statement or a call: a value, or a raised
    exception ([except Exception] catches every exception modelled here). *)
Inductive outcome (A : Type) : Type :=
| Returns (a : A)
| Raises (e : Exception).
Arguments Returns {A} a.
Arguments Raises {A} e.

(** [langchain.schema.Document]: the text and its metadata. *)
Record Document : Type := mkDocument {
  page_content : string;
  metadata : list (string * string)
}.

(** A Streamlit [UploadedFile]: [.name] and [.getbuffer()]. *)
Record UploadedFile : Type := mkUploadedFile {
  uf_name : string;
  uf_buffer : list byte
}.

(** A message of the conversation memory. *)
Inductive Message : Type :=
| HumanMessage (content : string)
| AIMessage (content : string).

(** The values stored in the dictionaries [chat] returns. *)
Inductive Value : Type :=
| VStr (s : string)
| VDocs (docs : list Document)
| VMsgs (msgs : list Message).

(** [str.lower()] on ASCII text. *)
Definition lower_ascii (c : ascii) : ascii :=
  let n := nat_of_ascii c in
  if (Nat.leb 65 n && Nat.leb n 90)%bool then ascii_of_nat (n + 32) else c.

Fixpoint lower (s : string) : string :=
  match s with
  | EmptyString => EmptyString
  | String c s' => String (lower_ascii c) (lower s')
  end.

(** Truth value of an optional string setting: [None] and [""] are false. *)
Definition truthy_str (o : option string) : bool :=
  match o with
  | None => false
  | Some s => negb (String.eqb s "")
  end.

(** ** The wrapped libraries *)

(** Every call into a library is a function of the world that returns or
    raises and leaves a new world.  Attribute reads are functions of the
    world.  [collection_docs] and [store_docs] are observations used in the
    statements only: the documents a named collection of a client holds,
    and the documents of the collection a [Chroma] object is bound to. *)
Class Libraries : Type := {
  W : Type;
  float : Type;
  Splitter : Type;
  Embeddings : Type;
  Client : Type;
  Chroma : Type;
  Retriever : Type;
  LLM : Type;
  Memory : Type;
  Prompt : Type;
  Chain : Type;
  (* os, shutil, open *)
  os_path_join : string → string → string;
  os_path_exists : string → W → bool;
  os_makedirs : string → W → outcome unit * W;
  shutil_rmtree : string → W → outcome unit * W;
  write_file : string → list byte → W → outcome unit * W;
  (* langchain: loader and splitter *)
  PyPDFLoader_load : string → W → outcome (list Document) * W;
  RecursiveCharacterTextSplitter :
    Z → Z → list string → W → outcome Splitter * W;
  splitter_split_documents :
    Splitter → list Document → W → outcome (list Document) * W;
  (* chromadb and langchain_chroma *)
  OllamaEmbeddings : string → string → W → outcome Embeddings * W;
  PersistentClient : string → W → outcome Client * W;
  delete_collection : Client → string → W → outcome unit * W;
  Chroma_from_documents :
    list Document → Embeddings → Client → string → W → outcome Chroma * W;
  Chroma_add_documents : Chroma → list Document → W → outcome unit * W;
  similarity_search : Chroma → string → Z → W → outcome (list Document) * W;
  as_retriever : Chroma → Z → W → outcome Retriever * W;
  collection_docs : Client → string → W → option (list Document);
  store_docs : Chroma → W → option (list Document);
  (* langchain: models, memory, chains *)
  OllamaLLM : string → string → float → W → outcome LLM * W;
  AzureChatOpenAI :
    string → string → string → string → float → W → outcome LLM * W;
  ConversationBufferMemory : string → bool → string → W → outcome Memory * W;
  memory_clear : Memory → W → outcome unit * W;
  memory_messages : Memory → W → list Message;
  PromptTemplate : string → list string → W → outcome Prompt * W;
  RetrievalQA_from_chain_type :
    LLM → string → Retriever → Memory → bool → Prompt → W → outcome Chain * W;
  chain_call : Chain → string → W → outcome (gmap string Value) * W
}.

(** ** [config.py]

    The settings with a literal value in [config.py] are definitions; the
    ones read from the environment or absent from the file are fields. *)
Class Config `{Libraries} : Type := {
  BASE_DIR : string;
  LLM_TEMPERATURE : float;
  LLM_PROVIDER : string;
  OLLAMA_MODEL : string;
  OLLAMA_BASE_URL : string;
  AZURE_OPENAI_API_KEY : option string;
  AZURE_OPENAI_ENDPOINT : option string;
  AZURE_OPENAI_DEPLOYMENT : string;
  AZURE_OPENAI_API_VERSION : string
}.

Module config.
Definition LLM_MODEL : string := "llama3.2:1b".
Definition LLM_BASE_URL : string := "http://localhost:11434".
Definition CHUNK_SIZE : Z := 1500.
Definition CHUNK_OVERLAP : Z := 200.
Definition COLLECTION_NAME : string := "pdf_documents".
Definition PDF_DIR `{Config} : string := os_path_join BASE_DIR "pdfFiles".
Definition VECTOR_DB_DIR `{Config} : string := os_path_join BASE_DIR "vectorDB".
Definition CHROMA_PERSIST_DIR `{Config} : string := VECTOR_DB_DIR.
End config.

(** ** Statements with state and exceptions

    A method body is a function of the object it runs on ([self], of type
    [S]) and of the world.  It returns or raises, and in both cases leaves
    the object and the world as mutated so far. *)
Section Monad.
Context `{Libraries}.

Definition M (S A : Type) : Type := S → W → outcome A * S * W.

Definition ret {S A} (a : A) : M S A := λ s w, (Returns a, s, w).

Definition raise {S A} (e : Exception) : M S A := λ s w, (Raises e, s, w).

Definition bind {S A B} (m : M S A) (k : A → M S B) : M S B :=
  λ s w,
    match m s w with
    | (Returns a, s', w') => k a s' w'
    | (Raises e, s', w') => (Raises e, s', w')
    end.

(** [try: body except Exception as e: handler e] *)
Definition try_except {S A} (body : M S A) (handler : Exception → M S A)
  : M S A :=
  λ s w,
    match body s w with
    | (Returns a, s', w') => (Returns a, s', w')
    | (Raises e, s', w') => handler e s' w'
    end.

(** A call into a library. *)
Definition call {S A} (f : W → outcome A * W) : M S A :=
  λ s w, let '(r, w') := f w in (r, s, w').

(** Reading an attribute of a library object. *)
Definition peek {S A} (f : W → A) : M S A := λ s w, (Returns (f w), s, w).

(** Reading and assigning the fields of [self]. *)
Definition get {S A} (f : S → A) : M S A := λ s w, (Returns (f s), s, w).
Definition assign {S} (f : S → S) : M S unit := λ s w, (Returns tt, f s, w).

(** Running a method of a component stored in a field of [self]. *)
Definition on {S T A} (field : T → S) (set_field : S → T → T) (m : M S A)
  : M T A :=
  λ t w, let '(r, s', w') := m (field t) w in (r, set_field s' t, w').

(** Running a constructor: a statement with no [self] yet. *)
Definition construct {A} (m : M unit A) (w : W) : outcome A * W :=
  let '(r, _, w') := m tt w in (r, w').
End Monad.

Notation "x <- m ;; k" := (bind m (λ x, k))
  (at level 100, m at next level, right associativity).
Notation "m ;;; k" := (bind m (λ _, k))
  (at level 100, right associativity).

(** ** [document_processor.py] *)
Module DocumentProcessor.
Section DocumentProcessor.
Context `{Config}.

Record t : Type := mk {
  chunk_size : Z;
  chunk_overlap : Z;
  text_splitter : Splitter
}.

(** [DocumentProcessor.__init__]; the defaults are [config.CHUNK_SIZE]
    and [config.CHUNK_OVERLAP]. *)
Definition init (chunk_size chunk_overlap : Z) : M unit t :=
  splitter <- call (RecursiveCharacterTextSplitter chunk_size chunk_overlap
                      [String "010" (String "010" ""); String "010" "";
                       " "; ""]) ;;
  ret (mk chunk_size chunk_overlap splitter).

Definition init_default : M unit t :=
  init config.CHUNK_SIZE config.CHUNK_OVERLAP.

Definition save_uploaded_file (uploaded_file : UploadedFile) : M t string :=
  let file_path := os_path_join config.PDF_DIR (uf_name uploaded_file) in
  call (write_file file_path (uf_buffer uploaded_file)) ;;;
  ret file_path.

Definition load_pdf (file_path : string) : M t (list Document) :=
  try_except
    (documents <- call (PyPDFLoader_load file_path) ;;
     ret documents)
    (λ e, raise e).

Definition split_documents (documents : list Document) : M t (list Document) :=
  self_splitter <- get text_splitter ;;
  chunks <- call (splitter_split_documents self_splitter documents) ;;
  ret chunks.

Definition process_pdf (uploaded_file : UploadedFile) : M t (list Document) :=
  file_path <- save_uploaded_file uploaded_file ;;
  documents <- load_pdf file_path ;;
  chunks <- split_documents documents ;;
  ret chunks.

(** The [for] loop of [process_multiple_pdfs], with [all_chunks] as it
    stands on entry to the loop body. *)
Fixpoint process_multiple_pdfs_loop (all_chunks : list Document)
    (uploaded_files : list UploadedFile) : M t (list Document) :=
  match uploaded_files with
  | [] => ret all_chunks
  | uploaded_file :: rest =>
      chunks <- process_pdf uploaded_file ;;
      process_multiple_pdfs_loop (all_chunks ++ chunks) rest
  end.

Definition process_multiple_pdfs (uploaded_files : list UploadedFile)
  : M t (list Document) :=
  process_multiple_pdfs_loop [] uploaded_files.

(** The chunk lists of the files one after the other, then their
    concatenation: what [process_multiple_pdfs] is compared with. *)
Fixpoint process_each (uploaded_files : list UploadedFile)
  : M t (list (list Document)) :=
  match uploaded_files with
  | [] => ret []
  | uploaded_file :: rest =>
      chunks <- process_pdf uploaded_file ;;
      others <- process_each rest ;;
      ret (chunks :: others)
  end.

Definition concat_of_each (uploaded_files : list UploadedFile)
  : M t (list Document) :=
  lists <- process_each uploaded_files ;;
  ret (concat lists).
End DocumentProcessor.
End DocumentProcessor.

(** ** [vector_store.py] *)
Module VectorStoreManager.
Section VectorStoreManager.
Context `{Config}.

Record t : Type := mk {
  model_name : string;
  base_url : string;
  embeddings : Embeddings;
  persist_directory : string;
  collection_name : string;
  _vector_store : option Chroma;
  chroma_client : Client
}.

Definition set_vector_store (v : option Chroma) (self : t) : t :=
  {| model_name := model_name self;
     base_url := base_url self;
     embeddings := embeddings self;
     persist_directory := persist_directory self;
     collection_name := collection_name self;
     _vector_store := v;
     chroma_client := chroma_client self |}.

(** [VectorStoreManager.__init__]; the defaults are [config.LLM_MODEL]
    and [config.LLM_BASE_URL]. *)
Definition init (model_name base_url : string) : M unit t :=
  emb <- call (OllamaEmbeddings model_name base_url) ;;
  client <- call (PersistentClient config.CHROMA_PERSIST_DIR) ;;
  ret {| model_name := model_name;
         base_url := base_url;
         embeddings := emb;
         persist_directory := config.CHROMA_PERSIST_DIR;
         collection_name := config.COLLECTION_NAME;
         _vector_store := None;
         chroma_client := client |}.

Definition init_default : M unit t :=
  init config.LLM_MODEL config.LLM_BASE_URL.

Definition create_vector_store (documents : list Document)
  : M t (option Chroma) :=
  try_except
    (try_except
       (client <- get chroma_client ;;
        name <- get collection_name ;;
        call (delete_collection client name))
       (λ _, ret tt) ;;;
     emb <- get embeddings ;;
     client <- get chroma_client ;;
     name <- get collection_name ;;
     store <- call (Chroma_from_documents documents emb client name) ;;
     assign (set_vector_store (Some store)) ;;;
     get _vector_store)
    (λ e, raise e).

Definition add_documents (documents : list Document) : M t unit :=
  store <- get _vector_store ;;
  match store with
  | None => create_vector_store documents ;;; ret tt
  | Some vs => call (Chroma_add_documents vs documents) ;;; ret tt
  end.

Definition clear_vector_store : M t unit :=
  try_except
    (try_except
       (client <- get chroma_client ;;
        name <- get collection_name ;;
        call (delete_collection client name))
       (λ _, ret tt) ;;;
     dir <- get persist_directory ;;
     found <- peek (os_path_exists dir) ;;
     if (found : bool)
     then call (shutil_rmtree dir) ;;; call (os_makedirs dir) ;;; ret tt
     else ret tt)
    (λ _, ret tt).

(** [search]; the default of [k] is 4. *)
Definition search (query : string) (k : Z) : M t (list Document) :=
  store <- get _vector_store ;;
  match store with
  | None => ret []
  | Some vs =>
      results <- call (similarity_search vs query k) ;;
      ret results
  end.

(** [get_retriever]; the default of [k] is 4. *)
Definition get_retriever (k : Z) : M t Retriever :=
  store <- get _vector_store ;;
  match store with
  | None => raise (ValueError "No vector store available")
  | Some vs => call (as_retriever vs k)
  end.
End VectorStoreManager.
End VectorStoreManager.

(** ** [llm_handler.py] *)
Module LLMHandler.
Section LLMHandler.
Context `{Config}.

Record t : Type := mk {
  provider : string;
  temperature : float;
  _llm : option LLM;
  _memory : option Memory;
  _qa_chain : option Chain
}.

Definition set_provider (p : string) (self : t) : t :=
  mk p (temperature self) (_llm self) (_memory self) (_qa_chain self).
Definition set_llm (l : option LLM) (self : t) : t :=
  mk (provider self) (temperature self) l (_memory self) (_qa_chain self).
Definition set_memory (m : option Memory) (self : t) : t :=
  mk (provider self) (temperature self) (_llm self) m (_qa_chain self).
Definition set_qa_chain (c : option Chain) (self : t) : t :=
  mk (provider self) (temperature self) (_llm self) (_memory self) c.

(** [LLMHandler.__init__]; the defaults are [config.LLM_PROVIDER] and
    [config.LLM_TEMPERATURE]. *)
Definition init (provider : string) (temperature : float) : M unit t :=
  ret (mk (lower provider) temperature None None None).

Definition init_default : M unit t := init LLM_PROVIDER LLM_TEMPERATURE.

Definition _create_ollama_llm : M t LLM :=
  temp <- get temperature ;;
  llm <- call (OllamaLLM OLLAMA_MODEL OLLAMA_BASE_URL temp) ;;
  ret llm.

Definition azure_credentials_message : string :=
  ("Azure OpenAI credentials not configured. " ++
   "Set AZURE_OPENAI_API_KEY and AZURE_OPENAI_ENDPOINT environment variables.")%string.

Definition _create_azure_llm : M t LLM :=
  if (negb (truthy_str AZURE_OPENAI_API_KEY)
      || negb (truthy_str AZURE_OPENAI_ENDPOINT))%bool
  then raise (ValueError azure_credentials_message)
  else
    temp <- get temperature ;;
    llm <- call (AzureChatOpenAI
                   (default "" AZURE_OPENAI_ENDPOINT)
                   AZURE_OPENAI_DEPLOYMENT
                   (default "" AZURE_OPENAI_API_KEY)
                   AZURE_OPENAI_API_VERSION
                   temp) ;;
    ret llm.

Definition get_llm : M t LLM :=
  cached <- get _llm ;;
  match cached with
  | Some llm => ret llm
  | None =>
      p <- get provider ;;
      llm <- (if String.eqb p "azure"
              then _create_azure_llm
              else _create_ollama_llm) ;;
      assign (set_llm (Some llm)) ;;;
      ret llm
  end.

Definition get_memory : M t Memory :=
  cached <- get _memory ;;
  match cached with
  | Some memory => ret memory
  | None =>
      memory <- call (ConversationBufferMemory "chat_history" true "result") ;;
      assign (set_memory (Some memory)) ;;;
      ret memory
  end.

Definition nl : string := String "010" "".
Definition dq : string := String "034" "".

Definition prompt_template : string :=
  String.concat nl
    [ "You are a helpful AI assistant that ONLY answers based on the provided context.";
      "";
      "CONTEXT FROM DOCUMENTS:";
      "{context}";
      "";
      "USER QUESTION: {question}";
      "";
      "INSTRUCTIONS:";
      "- Answer ONLY using information from the CONTEXT above";
      "- Be specific and quote relevant details from the context";
      "- If the context mentions a class name, topic, or subject, state it clearly";
      ("- If the answer is not in the context, say " ++ dq ++
         "I don't have that information in the provided documents" ++ dq)%string;
      "";
      "ANSWER: " ].

Definition create_qa_chain (retriever : Retriever) : M t Chain :=
  prompt <- call (PromptTemplate prompt_template ["context"; "question"]) ;;
  llm <- get_llm ;;
  memory <- get_memory ;;
  chain <- call (RetrievalQA_from_chain_type
                   llm "stuff" retriever memory true prompt) ;;
  assign (set_qa_chain (Some chain)) ;;;
  ret chain.

Definition query (question : string) : M t (gmap string Value) :=
  chain <- get _qa_chain ;;
  match chain with
  | None =>
      raise (ValueError "QA chain not initialized. Call create_qa_chain first.")
  | Some qa =>
      try_except
        (response <- call (chain_call qa question) ;;
         ret response)
        (λ e, raise e)
  end.

(** [if self._memory:] holds for every memory object: the class defines
    neither [__bool__] nor [__len__]. *)
Definition clear_memory : M t unit :=
  memory <- get _memory ;;
  match memory with
  | Some m => call (memory_clear m)
  | None => ret tt
  end.

Definition get_conversation_history : M t (list Message) :=
  memory <- get _memory ;;
  match memory with
  | None => ret []
  | Some m => peek (memory_messages m)
  end.

Definition switch_provider (provider : string) : M t unit :=
  assign (set_provider (lower provider)) ;;;
  assign (set_llm None) ;;;
  assign (set_qa_chain None).

Definition current_provider (self : t) : string := provider self.
End LLMHandler.
End LLMHandler.

(** ** [chatbot.py] *)

(** The argument of [process_pdfs] and [add_pdfs]: a list of uploaded
    files, or (the [else] branch of [isinstance]) a single one. *)
Inductive Uploaded : Type :=
| FileList (uploaded_files : list UploadedFile)
| SingleFile (uploaded_file : UploadedFile).

Module RAGChatbot.
Section RAGChatbot.
Context `{Config}.

Record t : Type := mk {
  document_processor : DocumentProcessor.t;
  vector_store_manager : VectorStoreManager.t;
  llm_handler : LLMHandler.t;
  _is_initialized : bool
}.

Definition set_document_processor (d : DocumentProcessor.t) (self : t) : t :=
  mk d (vector_store_manager self) (llm_handler self) (_is_initialized self).
Definition set_vector_store_manager (v : VectorStoreManager.t) (self : t) : t :=
  mk (document_processor self) v (llm_handler self) (_is_initialized self).
Definition set_llm_handler (l : LLMHandler.t) (self : t) : t :=
  mk (document_processor self) (vector_store_manager self) l
     (_is_initialized self).
Definition set_is_initialized (b : bool) (self : t) : t :=
  mk (document_processor self) (vector_store_manager self) (llm_handler self) b.

Definition in_document_processor {A} : M DocumentProcessor.t A → M t A :=
  on document_processor set_document_processor.
Definition in_vector_store_manager {A} : M VectorStoreManager.t A → M t A :=
  on vector_store_manager set_vector_store_manager.
Definition in_llm_handler {A} : M LLMHandler.t A → M t A :=
  on llm_handler set_llm_handler.

Definition init : M unit t :=
  dp <- DocumentProcessor.init_default ;;
  vsm <- VectorStoreManager.init_default ;;
  llm <- LLMHandler.init_default ;;
  ret (mk dp vsm llm false).

(** The [if isinstance(uploaded_files, list)] statement shared by
    [process_pdfs] and [add_pdfs]. *)
Definition chunks_of (uploaded_files : Uploaded)
  : M DocumentProcessor.t (list Document) :=
  match uploaded_files with
  | FileList files => DocumentProcessor.process_multiple_pdfs files
  | SingleFile file => DocumentProcessor.process_pdf file
  end.

Definition process_pdfs (uploaded_files : Uploaded) : M t bool :=
  try_except
    (chunks <- in_document_processor (chunks_of uploaded_files) ;;
     in_vector_store_manager
       (VectorStoreManager.create_vector_store chunks) ;;;
     retriever <- in_vector_store_manager
                    (VectorStoreManager.get_retriever 4) ;;
     in_llm_handler (LLMHandler.create_qa_chain retriever) ;;;
     assign (set_is_initialized true) ;;;
     ret true)
    (λ _, ret false).

Definition add_pdfs (uploaded_files : Uploaded) : M t bool :=
  try_except
    (chunks <- in_document_processor (chunks_of uploaded_files) ;;
     in_vector_store_manager (VectorStoreManager.add_documents chunks) ;;;
     retriever <- in_vector_store_manager
                    (VectorStoreManager.get_retriever 4) ;;
     in_llm_handler (LLMHandler.create_qa_chain retriever) ;;;
     ret true)
    (λ _, ret false).

Definition upload_first_message : string :=
  "Please upload a PDF file first to start chatting.".

(** The body of [chat], with the handler's [query] method as an argument.
    A result of [chat_via] that does not depend on [query] is a result
    obtained without calling it. *)
Definition chat_via (query : string → M LLMHandler.t (gmap string Value))
    (question : string) : M t (gmap string Value) :=
  ready <- get _is_initialized ;;
  if negb ready
  then ret (<["result" := VStr upload_first_message]>
              (<["source_documents" := VDocs []]> ∅))
  else
    try_except
      (response <- in_llm_handler (query question) ;;
       ret response)
      (λ e, ret (<["result" :=
                    VStr ("Sorry, I encountered an error: " ++ exc_str e)%string]>
                   (<["source_documents" := VDocs []]> ∅))).

Definition chat (question : string) : M t (gmap string Value) :=
  chat_via LLMHandler.query question.

(** [search_documents]; the default of [k] is 4. *)
Definition search_documents (query : string) (k : Z) : M t (list Document) :=
  in_vector_store_manager (VectorStoreManager.search query k).

Definition clear_chat_history : M t unit :=
  in_llm_handler LLMHandler.clear_memory.

Definition get_chat_history : M t (list Message) :=
  in_llm_handler LLMHandler.get_conversation_history.

Definition reset : M t unit :=
  in_vector_store_manager VectorStoreManager.clear_vector_store ;;;
  in_llm_handler LLMHandler.clear_memory ;;;
  assign (set_is_initialized false).

Definition is_ready (self : t) : bool := _is_initialized self.
End RAGChatbot.
End RAGChatbot.

(** ** Sessions: sequences of calls on one chatbot *)
Inductive Request : Type :=
| ProcessPdfs (uploaded_files : Uploaded)
| AddPdfs (uploaded_files : Uploaded)
| Chat (question : string)
| SearchDocuments (query : string) (k : Z)
| ClearChatHistory
| GetChatHistory
| Reset.

Inductive Reply : Type :=
| RBool (b : bool)
| RDict (d : gmap string Value)
| RDocs (docs : list Document)
| RMsgs (msgs : list Message)
| RNone
| RRaised (e : Exception).

Section Session.
Context `{Config}.

Definition reply_of {A} (wrap : A → Reply) (r : outcome A) : Reply :=
  match r with
  | Returns a => wrap a
  | Raises e => RRaised e
  end.

Definition answered {A} (wrap : A → Reply) (m : M RAGChatbot.t A)
  : RAGChatbot.t → W → Reply * RAGChatbot.t * W :=
  λ self w, let '(r, self', w') := m self w in (reply_of wrap r, self', w').

Definition serve (request : Request)
  : RAGChatbot.t → W → Reply * RAGChatbot.t * W :=
  match request with
  | ProcessPdfs u => answered RBool (RAGChatbot.process_pdfs u)
  | AddPdfs u => answered RBool (RAGChatbot.add_pdfs u)
  | Chat q => answered RDict (RAGChatbot.chat q)
  | SearchDocuments q k => answered RDocs (RAGChatbot.search_documents q k)
  | ClearChatHistory => answered (λ _, RNone) RAGChatbot.clear_chat_history
  | GetChatHistory => answered RMsgs RAGChatbot.get_chat_history
  | Reset => answered (λ _, RNone) RAGChatbot.reset
  end.

(** The calls in order, each with its reply. *)
Fixpoint session (requests : list Request) (self : RAGChatbot.t) (w : W)
  : list (Request * Reply) * RAGChatbot.t * W :=
  match requests with
  | [] => ([], self, w)
  | request :: rest =>
      let '(reply, self1, w1) := serve request self w in
      let '(log, self2, w2) := session rest self1 w1 in
      ((request, reply) :: log, self2, w2)
  end.

(** Whether, at the end of a log that starts at construction, a call to
    [process_pdfs] has returned [True] after the last completed [reset]. *)
Definition processed_after (before : bool) (entry : Request * Reply) : bool :=
  match entry with
  | (ProcessPdfs _, RBool true) => true
  | (Reset, RNone) => false
  | _ => before
  end.

Definition processed_since_reset (log : list (Request * Reply)) : bool :=
  fold_left processed_after log false.
End Session.

(** ** Frames and stages *)
Section Frames.
Context `{Libraries}.

(** [m] leaves the part [f] of [self] as it was, whether it returns or
    raises. *)
Definition keeps {S A X} (f : S → X) (m : M S A) : Prop :=
  ∀ s w r s' w', m s w = (r, s', w') → f s' = f s.
End Frames.

Section Stages.
Context `{Config}.

(** The statements of the [try] block of [process_pdfs] all return: the
    chunking on the document processor, the creation of the vector store
    on the vector store manager, and the initialisation of the QA chain
    (a retriever from the vector store manager, then the chain on the
    LLM handler), each in the world the one before left.  The components
    and the world at the end are the last four arguments. *)
Definition stages_complete (uploaded_files : Uploaded)
    (self : RAGChatbot.t) (w : W)
    (dp : DocumentProcessor.t) (vsm : VectorStoreManager.t)
    (llm : LLMHandler.t) (w' : W) : Prop :=
  ∃ chunks w1 store vsm1 w2 retriever w3 chain,
    RAGChatbot.chunks_of uploaded_files
      (RAGChatbot.document_processor self) w = (Returns chunks, dp, w1)
    ∧ VectorStoreManager.create_vector_store chunks
        (RAGChatbot.vector_store_manager self) w1 = (Returns store, vsm1, w2)
    ∧ VectorStoreManager.get_retriever 4 vsm1 w2 = (Returns retriever, vsm, w3)
    ∧ LLMHandler.create_qa_chain retriever
        (RAGChatbot.llm_handler self) w3 = (Returns chain, llm, w').
End Stages.

(** ** What the properties assume of the libraries *)

(** The vector database, when its calls return.  After
    [delete_collection] has returned, the named collection is gone;
    [Chroma.from_documents] gets or creates the named collection and adds
    the documents to it; [add_documents] adds to the collection of the
    store; a similarity search for [k] results returns at most [k].
    Nothing is assumed of a call that raises. *)
Class ChromaLaws `{Libraries} : Prop := {
  delete_collection_returns :
    ∀ c name w w',
      delete_collection c name w = (Returns tt, w') →
      collection_docs c name w' = None;
  from_documents_adds :
    ∀ docs emb c name w store w',
      Chroma_from_documents docs emb c name w = (Returns store, w') →
      collection_docs c name w'
        = Some (default [] (collection_docs c name w) ++ docs)
      ∧ store_docs store w' = collection_docs c name w';
  add_documents_appends :
    ∀ store docs w w',
      Chroma_add_documents store docs w = (Returns tt, w') →
      store_docs store w' = Some (default [] (store_docs store w) ++ docs);
  similarity_search_at_most :
    ∀ store query k w found w',
      similarity_search store query k w = (Returns found, w') →
      Z.of_nat (length found) ≤ k
}.

(** The conversation memory: after [clear()] there are no messages. *)
Class MemoryLaws `{Libraries} : Prop := {
  memory_clear_empties :
    ∀ m w w',
      memory_clear m w = (Returns tt, w') → memory_messages m w' = []
}.

(** A string occurs in another. *)
Definition contains (s part : string) : Prop :=
  ∃ before after, s = (before ++ part ++ after)%string.

(** ** A reference implementation of the libraries

    Files are byte strings by path, the database is a map from collection
    names to the documents added so far, memory objects are cells of a
    heap, and the model server answers when it is up. *)
Module Ref.
Record world : Type := mkWorld {
  disk : gmap string (list byte);
  db : gmap string (list Document);
  heap : list (list Message);
  server_up : bool
}.

Definition set_disk (d : gmap string (list byte)) (w : world) : world :=
  mkWorld d (db w) (heap w) (server_up w).
Definition set_db (d : gmap string (list Document)) (w : world) : world :=
  mkWorld (disk w) d (heap w) (server_up w).
Definition set_heap (h : list (list Message)) (w : world) : world :=
  mkWorld (disk w) (db w) h (server_up w).

Definition error (class msg : string) : Exception := mkException class msg.

(** Windows of [size] characters, each starting [step] characters after
    the one before. *)
Fixpoint windows (fuel : nat) (size step : nat) (chars : list ascii)
  : list (list ascii) :=
  match fuel with
  | O => []
  | S fuel' =>
      if Nat.leb (length chars) size then [chars]
      else take size chars :: windows fuel' size step (drop step chars)
  end.

Definition split_text (size overlap : Z) (text : string) : list string :=
  let chars := list_ascii_of_string text in
  if decide (chars = []) then []
  else
    string_of_list_ascii <$>
      windows (length chars) (Z.to_nat size)
              (Nat.max 1 (Z.to_nat (size - overlap))) chars.

Definition split_document (size overlap : Z) (d : Document) : list Document :=
  (λ piece, mkDocument piece (metadata d))
    <$> split_text size overlap (page_content d).

Definition respond (question : string) (context : list Document)
  : gmap string Value :=
  <["query" := VStr question]>
    (<["result" := VStr ("Answer to: " ++ question)%string]>
       (<["source_documents" := VDocs context]> ∅)).

#[export] Instance libraries : Libraries := {|
  W := world;
  float := Z;
  Splitter := Z * Z;
  Embeddings := string * string;
  Client := string;
  Chroma := string;
  Retriever := string * Z;
  LLM := string;
  Memory := nat;
  Prompt := string;
  Chain := string * (string * Z) * nat;
  os_path_join := λ a b, (a ++ "/" ++ b)%string;
  os_path_exists := λ _ _, true;
  os_makedirs := λ _ w, (Returns tt, w);
  shutil_rmtree := λ _ w, (Returns tt, set_db ∅ w);
  write_file := λ path content w,
    (Returns tt, set_disk (<[path := content]> (disk w)) w);
  PyPDFLoader_load := λ path w,
    match disk w !! path with
    | Some content =>
        (Returns [mkDocument (string_of_list_byte content)
                             [("source", path)]], w)
    | None => (Raises (error "FileNotFoundError" path), w)
    end;
  RecursiveCharacterTextSplitter := λ size overlap _ w,
    if decide (overlap ≤ size)
    then (Returns (size, overlap), w)
    else (Raises (ValueError "chunk overlap larger than chunk size"), w);
  splitter_split_documents := λ '(size, overlap) docs w,
    (Returns (docs ≫= split_document size overlap), w);
  OllamaEmbeddings := λ model url w, (Returns (model, url), w);
  PersistentClient := λ path w, (Returns path, w);
  delete_collection := λ _ name w,
    match db w !! name with
    | Some _ => (Returns tt, set_db (delete name (db w)) w)
    | None => (Raises (ValueError "collection does not exist"), w)
    end;
  Chroma_from_documents := λ docs _ _ name w,
    let existing := default [] (db w !! name) in
    if server_up w
    then (Returns name, set_db (<[name := (existing ++ docs)]> (db w)) w)
    else (Raises (error "ConnectionError" "embedding server unreachable"),
          set_db (<[name := existing]> (db w)) w);
  Chroma_add_documents := λ store docs w,
    match db w !! store with
    | Some existing =>
        if server_up w
        then (Returns tt, set_db (<[store := (existing ++ docs)]> (db w)) w)
        else (Raises (error "ConnectionError" "embedding server unreachable"),
              w)
    | None => (Raises (ValueError "collection does not exist"), w)
    end;
  similarity_search := λ store _ k w,
    match db w !! store with
    | Some docs =>
        if decide (0 < k)
        then (Returns (take (Z.to_nat k) docs), w)
        else (Raises (error "TypeError" "number of results must be positive"),
              w)
    | None => (Raises (ValueError "collection does not exist"), w)
    end;
  as_retriever := λ store k w, (Returns (store, k), w);
  collection_docs := λ _ name w, db w !! name;
  store_docs := λ store w, db w !! store;
  OllamaLLM := λ model _ _ w, (Returns model, w);
  AzureChatOpenAI := λ _ deployment _ _ _ w, (Returns deployment, w);
  ConversationBufferMemory := λ _ _ _ w,
    (Returns (length (heap w)), set_heap (heap w ++ [[]]) w);
  memory_clear := λ m w, (Returns tt, set_heap (<[m := []]> (heap w)) w);
  memory_messages := λ m w, default [] (heap w !! m);
  PromptTemplate := λ template _ w, (Returns template, w);
  RetrievalQA_from_chain_type := λ llm _ retriever memory _ _ w,
    (Returns (llm, retriever, memory), w);
  chain_call := λ '(_, (store, k), memory) question w,
    if server_up w
    then
      let context := take (Z.to_nat k) (default [] (db w !! store)) in
      let response := respond question context in
      (Returns response,
       set_heap
         (alter (λ msgs, (msgs ++ [HumanMessage question;
                                   AIMessage ("Answer to: " ++ question)%string]))
                memory (heap w)) w)
    else (Raises (error "ConnectionError" "model server unreachable"), w)
|}.

#[export] Instance settings : Config := {|
  BASE_DIR := "/app";
  LLM_TEMPERATURE := 7;
  LLM_PROVIDER := "Ollama";
  OLLAMA_MODEL := "llama3.2:1b";
  OLLAMA_BASE_URL := "http://localhost:11434";
  AZURE_OPENAI_API_KEY := None;
  AZURE_OPENAI_ENDPOINT := None;
  AZURE_OPENAI_DEPLOYMENT := "gpt-4";
  AZURE_OPENAI_API_VERSION := "2024-02-01"
|}.

(** *** Sample inputs *)
Definition empty_world : world := mkWorld ∅ ∅ [] true.

Definition report : UploadedFile :=
  mkUploadedFile "report.pdf" [x52; x41; x47].
Definition notes : UploadedFile := mkUploadedFile "notes.pdf" [x68; x69].

Definition page (text : string) : Document :=
  mkDocument text [("source", "/app/pdfFiles/report.pdf")].

(** The chatbot [RAGChatbot()] builds in the empty world. *)
Definition bot : RAGChatbot.t :=
  RAGChatbot.mk
    (DocumentProcessor.mk 1500 200 (1500, 200))
    (VectorStoreManager.mk "llama3.2:1b" "http://localhost:11434"
       ("llama3.2:1b", "http://localhost:11434")
       "/app/vectorDB" "pdf_documents" None "/app/vectorDB")
    (LLMHandler.mk "ollama" 7 None None None)
    false.

(** A session that processes a file, chats, resets and then only adds. *)
Definition requests : list Request :=
  [ Chat "hi";
    ProcessPdfs (FileList [report]);
    Chat "what is it about?";
    Reset;
    AddPdfs (FileList [notes]);
    GetChatHistory ].

Definition after_requests : list (Request * Reply) * RAGChatbot.t * world :=
  session requests bot empty_world.

(** A chatbot that has processed a file and answered one question. *)
Definition after_question : list (Request * Reply) * RAGChatbot.t * world :=
  session [ProcessPdfs (FileList [report; notes]); Chat "what is it about?"]
    bot empty_world.

(** The same chatbot after a switch of provider on its handler. *)
Definition switched : RAGChatbot.t :=
  let self := after_question.1.2 in
  let '(_, llm, _) :=
    LLMHandler.switch_provider "Azure" (RAGChatbot.llm_handler self)
      after_question.2 in
  RAGChatbot.set_llm_handler llm self.

(** The same chatbot after its chat history is cleared. *)
Definition after_clear : outcome unit * RAGChatbot.t * world :=
  RAGChatbot.clear_chat_history after_question.1.2 after_question.2.

(** The world of that chatbot once the model server is down. *)
Definition server_down : world :=
  let w := after_question.2 in mkWorld (disk w) (db w) (heap w) false.

Definition after_failure : outcome bool * RAGChatbot.t * world :=
  RAGChatbot.process_pdfs (FileList [notes]) after_question.1.2 server_down.

(** A world whose database already has the configured collection, and a
    manager that holds no store, or holds that collection. *)
Definition old_world : world :=
  mkWorld ∅ {[ "pdf_documents" := [page "old"; page "older"] ]} [] true.

Definition manager : VectorStoreManager.t := RAGChatbot.vector_store_manager bot.

Definition holding : VectorStoreManager.t :=
  VectorStoreManager.set_vector_store (Some "pdf_documents") manager.
End Ref.

(** ** The rest of [vector_store.py] and [llm_handler.py], and [run_app.py]

    The library calls these need beyond the ones above. *)
Class MoreLibraries `{Libraries} : Type := {
  (* chromadb: the names of the collections of a client *)
  list_collections : Client → W → outcome (list string) * W;
  (* langchain_chroma: [Chroma(client, collection_name, embedding_function)] *)
  Chroma_open : Client → string → Embeddings → W → outcome Chroma * W;
  (* requests: the status code of [requests.get(url, timeout)] *)
  requests_get : string → Z → W → outcome Z * W;
  (* subprocess, sys, str *)
  subprocess_run : list string → W → outcome unit * W;
  sys_executable : string;
  str_of_float : float → string
}.

Module VectorStoreLoading.
Section VectorStoreLoading.
Context `{Config} {more : MoreLibraries}.
Import VectorStoreManager.

Definition load_vector_store : M t (option Chroma) :=
  try_except
    (client <- get chroma_client ;;
     collections <- call (list_collections client) ;;
     name <- get collection_name ;;
     if negb (existsb (λ col, String.eqb col name) collections)
     then ret None
     else
       emb <- get embeddings ;;
       store <- call (Chroma_open client name emb) ;;
       assign (set_vector_store (Some store)) ;;;
       get _vector_store)
    (λ _, ret None).

Definition get_vector_store : M t (option Chroma) :=
  held <- get _vector_store ;;
  match held with
  | None =>
      loaded <- load_vector_store ;;
      assign (set_vector_store loaded)
  | Some _ => ret tt
  end ;;;
  get _vector_store.
End VectorStoreLoading.
End VectorStoreLoading.

Module ModelInfo.
Section ModelInfo.
Context `{Config}.
Import LLMHandler.

(** The [model_info] property; the endpoint of the cloud deployment may be
    unset. *)
Definition model_info (self : t) : gmap string (option string) :=
  if String.eqb (provider self) "azure"
  then <["provider" := Some "Azure OpenAI"]>
         (<["model" := Some AZURE_OPENAI_DEPLOYMENT]>
            (<["endpoint" := AZURE_OPENAI_ENDPOINT]> ∅))
  else <["provider" := Some "Ollama"]>
         (<["model" := Some OLLAMA_MODEL]>
            (<["endpoint" := Some OLLAMA_BASE_URL]> ∅)).
End ModelInfo.
End ModelInfo.

(** ** [run_app.py]

    [main] after [parse_args]: the parsed arguments are its input, and
    [os.environ] is the object it runs on.  The [print] calls are left
    out. *)
Module run_app.
Section run_app.
Context `{Libraries} {more : MoreLibraries}.

Record Args : Type := mkArgs {
  provider : string;
  model : string;
  ollama_url : string;
  api_key : string;
  endpoint : string;
  deployment : string;
  api_version : string;
  temperature : float;
  port : Z;
  check : bool
}.

(** [str(n)] for an integer. *)
Definition str_of_int (n : Z) : string := NilZero.string_of_int (Z.to_int n).

(** [sys.exit(code)] raises [SystemExit(code)]. *)
Definition SystemExit (code : Z) : Exception :=
  {| exc_class := "SystemExit"; exc_str := str_of_int code |}.

Definition sys_exit {S A} (code : Z) : M S A := raise (SystemExit code).

Definition validate_azure_config (args : Args) : bool :=
  if negb (truthy_str (Some (api_key args))) then false
  else if negb (truthy_str (Some (endpoint args))) then false
  else true.

(** The bare [except:] catches whatever the request raises. *)
Definition check_ollama {S} : M S bool :=
  try_except
    (status <- call (requests_get "http://localhost:11434/api/tags" 5) ;;
     ret (status =? 200))
    (λ _, ret false).

Definition set_environment (args : Args) (environ : gmap string string)
  : gmap string string :=
  let environ := <["LLM_PROVIDER" := provider args]> environ in
  let environ :=
    <["LLM_TEMPERATURE" := str_of_float (temperature args)]> environ in
  if String.eqb (provider args) "ollama"
  then
    let environ := <["OLLAMA_MODEL" := model args]> environ in
    <["OLLAMA_BASE_URL" := ollama_url args]> environ
  else
    let environ := <["AZURE_OPENAI_API_KEY" := api_key args]> environ in
    let environ := <["AZURE_OPENAI_ENDPOINT" := endpoint args]> environ in
    let environ := <["AZURE_OPENAI_DEPLOYMENT" := deployment args]> environ in
    <["AZURE_OPENAI_API_VERSION" := api_version args]> environ.

(** Of [print_config] only the call to [check_ollama] has an effect. *)
Definition print_config {S} (args : Args) : M S unit :=
  if String.eqb (provider args) "ollama"
  then check_ollama ;;; ret tt
  else ret tt.

Definition streamlit_command (args : Args) : list string :=
  [sys_executable; "-m"; "streamlit"; "run"; "app.py";
   "--server.port"; str_of_int (port args);
   "--server.headless"; "true"].

(** [x and not check_ollama()]: the check runs only when [x] holds. *)
Definition ollama_selected_and_down {S} (args : Args) : M S bool :=
  if String.eqb (provider args) "ollama"
  then running <- check_ollama ;; ret (negb running)
  else ret false.

(** The body of [main] after [parse_args], with [subprocess.run] as an
    argument: [main] is [main_via subprocess_run]. *)
Definition main_via (run : list string → W → outcome unit * W) (args : Args)
  : M (gmap string string) unit :=
  (if String.eqb (provider args) "azure"
   then if negb (validate_azure_config args) then sys_exit 1 else ret tt
   else ret tt) ;;;
  assign (set_environment args) ;;;
  print_config args ;;;
  (if check args
   then
     down <- ollama_selected_and_down args ;;
     (if (down : bool) then sys_exit 1 else ret tt) ;;;
     sys_exit 0
   else ret tt) ;;;
  down <- ollama_selected_and_down args ;;
  (if (down : bool) then sys_exit 1 else ret tt) ;;;
  call (run (streamlit_command args)).

Definition main (args : Args) : M (gmap string string) unit :=
  main_via subprocess_run args.
End run_app.
End run_app.

(** ** [app.py]: the session state

    [st.session_state] is a dictionary kept across the reruns of the page;
    it holds the chatbot and the messages shown. *)
Inductive SessionValue `{Config} : Type :=
| SChatbot (chatbot : RAGChatbot.t)
| SMessages (messages : list (gmap string string)).

Module app.
Section app.
Context `{Config}.

Definition SESSION_MESSAGES : string := "messages".

Definition initialize_session_state : M (gmap string SessionValue) unit :=
  session_state <- get id ;;
  (if decide (session_state !! "chatbot" = None)
   then
     chatbot <- call (construct RAGChatbot.init) ;;
     assign (insert "chatbot" (SChatbot chatbot))
   else ret tt) ;;;
  session_state <- get id ;;
  if decide (session_state !! SESSION_MESSAGES = None)
  then assign (insert SESSION_MESSAGES (SMessages []))
  else ret tt.
End app.
End app.

(** ** Predicates kept by statements *)
Section Preserves.
Context `{Libraries}.

(** Once [P] holds of [self], it holds after [m], whether [m] returns or
    raises. *)
Definition preserves {S A} (P : S → Prop) (m : M S A) : Prop :=
  ∀ s w r s' w', m s w = (r, s', w') → P s → P s'.
End Preserves.

Section MoreStages.
Context `{Config}.

(** The statements of the [try] block of [add_pdfs] all return. *)
Definition add_stages_complete (uploaded_files : Uploaded)
    (self : RAGChatbot.t) (w : W)
    (dp : DocumentProcessor.t) (vsm : VectorStoreManager.t)
    (llm : LLMHandler.t) (w' : W) : Prop :=
  ∃ chunks w1 vsm1 w2 retriever w3 chain,
    RAGChatbot.chunks_of uploaded_files
      (RAGChatbot.document_processor self) w = (Returns chunks, dp, w1)
    ∧ VectorStoreManager.add_documents chunks
        (RAGChatbot.vector_store_manager self) w1 = (Returns tt, vsm1, w2)
    ∧ VectorStoreManager.get_retriever 4 vsm1 w2 = (Returns retriever, vsm, w3)
    ∧ LLMHandler.create_qa_chain retriever
        (RAGChatbot.llm_handler self) w3 = (Returns chain, llm, w').

(** The parts of [equipped] on the components. *)
Definition store_held (s : VectorStoreManager.t) : Prop :=
  is_Some (VectorStoreManager._vector_store s).

Definition handler_equipped (h : LLMHandler.t) : Prop :=
  is_Some (LLMHandler._qa_chain h)
  ∧ is_Some (LLMHandler._llm h)
  ∧ is_Some (LLMHandler._memory h).

(** A chatbot with everything [chat] needs: a store, a chain, a model and
    a memory. *)
Definition equipped (self : RAGChatbot.t) : Prop :=
  is_Some (VectorStoreManager._vector_store (RAGChatbot.vector_store_manager self))
  ∧ is_Some (LLMHandler._qa_chain (RAGChatbot.llm_handler self))
  ∧ is_Some (LLMHandler._llm (RAGChatbot.llm_handler self))
  ∧ is_Some (LLMHandler._memory (RAGChatbot.llm_handler self)).

(** The requests that upload files. *)
Definition uploads (request : Request) : bool :=
  match request with
  | ProcessPdfs _ | AddPdfs _ => true
  | _ => false
  end.
End MoreStages.

(** The reference libraries, continued: the collections are the keys of
    the database, and the local model server answers 200 when it is up. *)
Module RefMore.
Import Ref.

#[export] Instance more_libraries : MoreLibraries := {|
  list_collections := λ _ w, (Returns (elements (dom (db w))), w);
  Chroma_open := λ _ name _ w,
    match db w !! name with
    | Some _ => (Returns name, w)
    | None => (Raises (ValueError "collection does not exist"), w)
    end;
  requests_get := λ _ _ w,
    if server_up w then (Returns 200, w)
    else (Raises (error "ConnectionError" "connection refused"), w);
  subprocess_run := λ _ w, (Returns tt, w);
  sys_executable := "/usr/bin/python3";
  str_of_float := λ tenths, ("0." ++ run_app.str_of_int tenths)%string
|}.

Definition ollama_args : run_app.Args :=
  run_app.mkArgs "ollama" "qwen2.5:1.5b" "http://localhost:11434" "" ""
    "gpt-4" "2024-02-15-preview" 7 8501 false.

(** [--provider azure] with no key and no endpoint. *)
Definition azure_args : run_app.Args :=
  run_app.mkArgs "azure" "qwen2.5:1.5b" "http://localhost:11434" "" ""
    "gpt-4" "2024-02-15-preview" 7 8501 false.

Definition check_args : run_app.Args :=
  run_app.mkArgs "ollama" "qwen2.5:1.5b" "http://localhost:11434" "" ""
    "gpt-4" "2024-02-15-preview" 7 8501 true.

(** The sample world with the embedding server down. *)
Definition old_world_down : world :=
  mkWorld (disk old_world) (db old_world) (heap old_world) false.

(** The chatbot that has answered a question, after a [reset]. *)
Definition after_reset : outcome unit * RAGChatbot.t * world :=
  RAGChatbot.reset after_question.1.2 after_question.2.

(** The same chatbot, reset, used again and cleared. *)
Definition more_requests : list Request :=
  [Reset; ProcessPdfs (FileList [notes]); Chat "and this one?";
   ClearChatHistory].

Definition after_more : list (Request * Reply) * RAGChatbot.t * world :=
  session more_requests after_question.1.2 after_question.2.

(** A session without uploads. *)
Definition idle_requests : list Request :=
  [Chat "hi"; Reset; SearchDocuments "anything" 3; ClearChatHistory].

Definition after_idle : list (Request * Reply) * RAGChatbot.t * world :=
  session idle_requests bot empty_world.
End RefMore.

(** The reference libraries with a loader that rejects empty files. *)
Module RefStrict.

#[export] Instance libraries : Libraries := {|
  W := Ref.world;
  float := Z;
  Splitter := Z * Z;
  Embeddings := string * string;
  Client := string;
  Chroma := string;
  Retriever := string * Z;
  LLM := string;
  Memory := nat;
  Prompt := string;
  Chain := string * (string * Z) * nat;
  os_path_join := @os_path_join Ref.libraries;
  os_path_exists := @os_path_exists Ref.libraries;
  os_makedirs := @os_makedirs Ref.libraries;
  shutil_rmtree := @shutil_rmtree Ref.libraries;
  write_file := @write_file Ref.libraries;
  PyPDFLoader_load := λ path w,
    match Ref.disk w !! path with
    | Some [] => (Raises (Ref.error "PdfReadError" "empty file"), w)
    | _ => @PyPDFLoader_load Ref.libraries path w
    end;
  RecursiveCharacterTextSplitter :=
    @RecursiveCharacterTextSplitter Ref.libraries;
  splitter_split_documents := @splitter_split_documents Ref.libraries;
  OllamaEmbeddings := @OllamaEmbeddings Ref.libraries;
  PersistentClient := @PersistentClient Ref.libraries;
  delete_collection := @delete_collection Ref.libraries;
  Chroma_from_documents := @Chroma_from_documents Ref.libraries;
  Chroma_add_documents := @Chroma_add_documents Ref.libraries;
  similarity_search := @similarity_search Ref.libraries;
  as_retriever := @as_retriever Ref.libraries;
  collection_docs := @collection_docs Ref.libraries;
  store_docs := @store_docs Ref.libraries;
  OllamaLLM := @OllamaLLM Ref.libraries;
  AzureChatOpenAI := @AzureChatOpenAI Ref.libraries;
  ConversationBufferMemory := @ConversationBufferMemory Ref.libraries;
  memory_clear := @memory_clear Ref.libraries;
  memory_messages := @memory_messages Ref.libraries;
  PromptTemplate := @PromptTemplate Ref.libraries;
  RetrievalQA_from_chain_type := @RetrievalQA_from_chain_type Ref.libraries;
  chain_call := @chain_call Ref.libraries
|}.

#[export] Instance settings : Config := {|
  BASE_DIR := "/app";
  LLM_TEMPERATURE := 7;
  LLM_PROVIDER := "ollama";
  OLLAMA_MODEL := "llama3.2:1b";
  OLLAMA_BASE_URL := "http://localhost:11434";
  AZURE_OPENAI_API_KEY := None;
  AZURE_OPENAI_ENDPOINT := None;
  AZURE_OPENAI_DEPLOYMENT := "gpt-4";
  AZURE_OPENAI_API_VERSION := "2024-02-01"
|}.

Definition empty_file : UploadedFile := mkUploadedFile "empty.pdf" [].

Definition bot : RAGChatbot.t :=
  RAGChatbot.mk
    (DocumentProcessor.mk 1500 200 (1500, 200))
    (VectorStoreManager.mk "llama3.2:1b" "http://localhost:11434"
       ("llama3.2:1b", "http://localhost:11434")
       "/app/vectorDB" "pdf_documents" None "/app/vectorDB")
    (LLMHandler.mk "ollama" 7 None None None)
    false.

(** The processor and the world after the first file of a batch. *)
Definition after_report : outcome (list Document) * DocumentProcessor.t * W :=
  DocumentProcessor.process_multiple_pdfs [Ref.report]
    (RAGChatbot.document_processor bot) Ref.empty_world.

Definition after_empty : outcome (list Document) * DocumentProcessor.t * W :=
  DocumentProcessor.process_pdf empty_file after_report.1.2 after_report.2.
End RefStrict.

(** The reference libraries over a database that refuses deletions:
    [delete_collection] raises and leaves the collection in place. *)
Module RefLocked.

#[export] Instance libraries : Libraries := {|
  W := Ref.world;
  float := Z;
  Splitter := Z * Z;
  Embeddings := string * string;
  Client := string;
  Chroma := string;
  Retriever := string * Z;
  LLM := string;
  Memory := nat;
  Prompt := string;
  Chain := string * (string * Z) * nat;
  os_path_join := @os_path_join Ref.libraries;
  os_path_exists := @os_path_exists Ref.libraries;
  os_makedirs := @os_makedirs Ref.libraries;
  shutil_rmtree := @shutil_rmtree Ref.libraries;
  write_file := @write_file Ref.libraries;
  PyPDFLoader_load := @PyPDFLoader_load Ref.libraries;
  RecursiveCharacterTextSplitter :=
    @RecursiveCharacterTextSplitter Ref.libraries;
  splitter_split_documents := @splitter_split_documents Ref.libraries;
  OllamaEmbeddings := @OllamaEmbeddings Ref.libraries;
  PersistentClient := @PersistentClient Ref.libraries;
  delete_collection := λ _ _ w,
    (Raises (Ref.error "InternalError" "database is locked"), w);
  Chroma_from_documents := @Chroma_from_documents Ref.libraries;
  Chroma_add_documents := @Chroma_add_documents Ref.libraries;
  similarity_search := @similarity_search Ref.libraries;
  as_retriever := @as_retriever Ref.libraries;
  collection_docs := @collection_docs Ref.libraries;
  store_docs := @store_docs Ref.libraries;
  OllamaLLM := @OllamaLLM Ref.libraries;
  AzureChatOpenAI := @AzureChatOpenAI Ref.libraries;
  ConversationBufferMemory := @ConversationBufferMemory Ref.libraries;
  memory_clear := @memory_clear Ref.libraries;
  memory_messages := @memory_messages Ref.libraries;
  PromptTemplate := @PromptTemplate Ref.libraries;
  RetrievalQA_from_chain_type := @RetrievalQA_from_chain_type Ref.libraries;
  chain_call := @chain_call Ref.libraries
|}.

#[export] Instance settings : Config := {|
  BASE_DIR := "/app";
  LLM_TEMPERATURE := 7;
  LLM_PROVIDER := "ollama";
  OLLAMA_MODEL := "llama3.2:1b";
  OLLAMA_BASE_URL := "http://localhost:11434";
  AZURE_OPENAI_API_KEY := None;
  AZURE_OPENAI_ENDPOINT := None;
  AZURE_OPENAI_DEPLOYMENT := "gpt-4";
  AZURE_OPENAI_API_VERSION := "2024-02-01"
|}.

(** The manager [VectorStoreManager()] builds, and the manager after
    [create_vector_store]. *)
Definition manager : VectorStoreManager.t :=
  VectorStoreManager.mk "llama3.2:1b" "http://localhost:11434"
    ("llama3.2:1b", "http://localhost:11434")
    "/app/vectorDB" "pdf_documents" None "/app/vectorDB".

Definition holding : VectorStoreManager.t :=
  VectorStoreManager.set_vector_store (Some "pdf_documents") manager.

End RefLocked.

(** * Properties *)

Lemma triple_eta {A B C} (p : A * B * C) : p = (p.1.1, p.1.2, p.2).
Proof. by destruct p as [[a b] c]. Qed.

Lemma append_empty_r (s : string) : (s ++ "")%string = s.
Proof.
  induction s as [|c s IH]; [done|].
  change (String c (s ++ "")%string = String c s). by f_equal.
Qed.

Lemma contains_suffix (before part : string) :
  contains (before ++ part) part.
Proof. exists before, "". by rewrite append_empty_r. Qed.

(** ** Statements *)
Section MonadFacts.
Context `{Libraries}.

Lemma bind_returns {S A B} (m : M S A) (k : A → M S B) s w a s1 w1 :
  m s w = (Returns a, s1, w1) → bind m k s w = k a s1 w1.
Proof. intros E. unfold bind. by rewrite E. Qed.

Lemma bind_raises {S A B} (m : M S A) (k : A → M S B) s w e s1 w1 :
  m s w = (Raises e, s1, w1) → bind m k s w = (Raises e, s1, w1).
Proof. intros E. unfold bind. by rewrite E. Qed.

Lemma bind_ret_r {S A} (m : M S A) s w : bind m ret s w = m s w.
Proof. unfold bind, ret. by destruct (m s w) as [[[a|e] s1] w1]. Qed.

Lemma bind_assoc {S A B C} (m : M S A) (k : A → M S B) (h : B → M S C) s w :
  bind (bind m k) h s w = bind m (λ a, bind (k a) h) s w.
Proof. unfold bind. by destruct (m s w) as [[[a|e] s1] w1]. Qed.

Lemma reraise {S A} (m : M S A) s w : try_except m raise s w = m s w.
Proof. unfold try_except, raise. by destruct (m s w) as [[[a|e] s1] w1]. Qed.

Lemma on_returns {S T A} (field : T → S) set_field (m : M S A) t w r s1 w1 :
  m (field t) w = (r, s1, w1) →
  on field set_field m t w = (r, set_field s1 t, w1).
Proof. intros E. unfold on. by rewrite E. Qed.

(** *** Frame rules *)
Lemma keeps_ret {S A X} (f : S → X) (a : A) : keeps f (ret a).
Proof. intros s w r s' w' E. unfold ret in E. by simplify_eq. Qed.

Lemma keeps_raise {S A X} (f : S → X) e : keeps f (raise (A := A) e).
Proof. intros s w r s' w' E. unfold raise in E. by simplify_eq. Qed.

Lemma keeps_get {S A X} (f : S → X) (g : S → A) : keeps f (get g).
Proof. intros s w r s' w' E. unfold get in E. by simplify_eq. Qed.

Lemma keeps_peek {S A X} (f : S → X) (g : W → A) : keeps f (peek g).
Proof. intros s w r s' w' E. unfold peek in E. by simplify_eq. Qed.

Lemma keeps_call {S A X} (f : S → X) (g : W → outcome A * W) :
  keeps f (call g).
Proof.
  intros s w r s' w' E. unfold call in E.
  destruct (g w) as [r0 w0]. by simplify_eq.
Qed.

Lemma keeps_assign {S X} (f : S → X) (g : S → S) :
  (∀ s, f (g s) = f s) → keeps f (assign g).
Proof. intros Hg s w r s' w' E. unfold assign in E. by simplify_eq. Qed.

Lemma keeps_bind {S A B X} (f : S → X) (m : M S A) (k : A → M S B) :
  keeps f m → (∀ a, keeps f (k a)) → keeps f (bind m k).
Proof.
  intros Hm Hk s w r s' w' E. unfold bind in E.
  destruct (m s w) as [[[a|e] s1] w1] eqn:Em.
  - rewrite (Hk a _ _ _ _ _ E). eauto.
  - simplify_eq. eauto.
Qed.

Lemma keeps_try_except {S A X} (f : S → X) (m : M S A) handler :
  keeps f m → (∀ e, keeps f (handler e)) → keeps f (try_except m handler).
Proof.
  intros Hm Hh s w r s' w' E. unfold try_except in E.
  destruct (m s w) as [[[a|e] s1] w1] eqn:Em.
  - simplify_eq. eauto.
  - rewrite (Hh e _ _ _ _ _ E). eauto.
Qed.

Lemma keeps_on {S T A X} (f : T → X) (field : T → S) set_field (m : M S A) :
  (∀ s t, f (set_field s t) = f t) → keeps f (on field set_field m).
Proof.
  intros Hset t w r t' w' E. unfold on in E.
  destruct (m (field t) w) as [[r0 s1] w1]. by simplify_eq.
Qed.
End MonadFacts.

Ltac keeps_step :=
  first
    [ apply keeps_ret | apply keeps_raise | apply keeps_get | apply keeps_peek
    | apply keeps_call
    | apply keeps_on; intros; reflexivity
    | apply keeps_assign; intros; reflexivity
    | apply keeps_bind; [| intros ?]
    | apply keeps_try_except; [| intros ?]
    | match goal with
      | |- keeps _ (match ?x with _ => _ end) => destruct x
      end ].

Ltac keeps_all := repeat keeps_step.

(** ** [DocumentProcessor] *)
Section DocumentProcessorFacts.
Context `{Config}.
Import DocumentProcessor.

(** [split_documents] is one call to the splitter built by [__init__]
    from [chunk_size] and [chunk_overlap]; by default these are 1500 and
    200, and the separators are the blank line, the newline, the space
    and the empty string. *)
Lemma split_documents_forwards documents self w :
  split_documents documents self w
  = let '(r, w') :=
      splitter_split_documents (text_splitter self) documents w in
    (r, self, w').
Proof.
  unfold split_documents, bind, get, call, ret.
  by destruct (splitter_split_documents _ _ w) as [[chunks|e] w'].
Qed.

Lemma init_default_splitter w :
  construct init_default w
  = match RecursiveCharacterTextSplitter 1500 200
            [String "010" (String "010" ""); String "010" ""; " "; ""] w with
    | (Returns splitter, w') => (Returns (mk 1500 200 splitter), w')
    | (Raises e, w') => (Raises e, w')
    end.
Proof.
  unfold construct, init_default, init, bind, call, ret.
  by destruct (RecursiveCharacterTextSplitter _ _ _ w) as [[splitter|e] w'].
Qed.

Lemma process_multiple_pdfs_loop_acc files :
  ∀ acc self w,
    process_multiple_pdfs_loop acc files self w
    = (lists <- process_each files ;; ret (acc ++ concat lists)) self w.
Proof.
  induction files as [|file rest IH]; intros acc self w.
  - cbn. unfold bind, ret. by rewrite app_nil_r.
  - cbn [process_multiple_pdfs_loop process_each]. unfold bind.
    destruct (process_pdf file self w) as [[[chunks|e] self1] w1]; [|done].
    rewrite IH. unfold bind, ret.
    destruct (process_each rest self1 w1) as [[[lists|e] self2] w2]; [|done].
    cbn. by rewrite app_assoc.
Qed.

Lemma process_each_app xs ys self w :
  process_each (xs ++ ys) self w
  = (a <- process_each xs ;; b <- process_each ys ;; ret (a ++ b)) self w.
Proof.
  revert self w. induction xs as [|x xs IH]; intros self w.
  - cbn. unfold bind, ret.
    by destruct (process_each ys self w) as [[[b|e] self1] w1].
  - cbn [app process_each]. unfold bind.
    destruct (process_pdf x self w) as [[[chunks|e] self1] w1]; [|done].
    rewrite IH. unfold bind, ret.
    destruct (process_each xs self1 w1) as [[[a|e] self2] w2]; [|done].
    by destruct (process_each ys self2 w2) as [[[b|e] self3] w3].
Qed.

(** C9: [process_multiple_pdfs] returns the concatenation, in input order,
    of what [process_pdf] returns for each file, run one after the other
    (and raises what the first failing [process_pdf] raises); on the
    concatenation of two input lists it is [process_multiple_pdfs] on the
    first, then on the second, with the two chunk lists concatenated; on
    the empty list it returns the empty list and changes nothing. *)
Theorem process_multiple_pdfs_concat :
  (∀ files self w,
      process_multiple_pdfs files self w = concat_of_each files self w)
  ∧ (∀ xs ys self w,
        process_multiple_pdfs (xs ++ ys) self w
        = (a <- process_multiple_pdfs xs ;;
           b <- process_multiple_pdfs ys ;;
           ret (a ++ b)) self w)
  ∧ (∀ self w, process_multiple_pdfs [] self w = (Returns [], self, w)).
Proof.
  split; [|split].
  - intros files self w. unfold process_multiple_pdfs, concat_of_each.
    by rewrite process_multiple_pdfs_loop_acc.
  - intros xs ys self w. unfold process_multiple_pdfs.
    rewrite process_multiple_pdfs_loop_acc. unfold bind at 1.
    rewrite process_each_app. unfold bind.
    rewrite process_multiple_pdfs_loop_acc. unfold bind, ret.
    destruct (process_each xs self w) as [[[a|e] self1] w1]; [|done].
    rewrite process_multiple_pdfs_loop_acc. unfold bind, ret.
    destruct (process_each ys self1 w1) as [[[b|e] self2] w2]; [|done].
    cbn. by rewrite concat_app.
  - done.
Qed.
End DocumentProcessorFacts.

(** ** [VectorStoreManager] *)
Section VectorStoreManagerFacts.
Context `{Config}.
Import VectorStoreManager.

(** The body of [create_vector_store], statement by statement. *)
Lemma create_vector_store_unfold documents self w :
  create_vector_store documents self w
  = let '(_, w1) :=
      delete_collection (chroma_client self) (collection_name self) w in
    match Chroma_from_documents documents (embeddings self)
            (chroma_client self) (collection_name self) w1 with
    | (Returns store, w2) =>
        (Returns (Some store), set_vector_store (Some store) self, w2)
    | (Raises e, w2) => (Raises e, self, w2)
    end.
Proof.
  unfold create_vector_store. rewrite reraise.
  unfold bind, try_except, get, call, assign, ret. cbn.
  destruct (delete_collection _ _ w) as [[[]|e] w1];
    by destruct (Chroma_from_documents _ _ _ _ w1) as [[store|e'] w2].
Qed.


(** C5: with no store held, [add_documents] does what
    [create_vector_store] does (same object and world afterwards, same
    exception if any) and returns [None]; with a store held, it is one
    call to the store's [add_documents], the manager is unchanged, and
    when the call returns, the documents the store held are all still
    there, in their places, followed by the given ones. *)
Theorem add_documents_creates_or_appends {chroma_laws : ChromaLaws} documents self w :
  (_vector_store self = None →
     add_documents documents self w
     = match create_vector_store documents self w with
       | (Returns _, self', w') => (Returns tt, self', w')
       | (Raises e, self', w') => (Raises e, self', w')
       end)
  ∧ (∀ vs, _vector_store self = Some vs →
       ∃ r w',
         Chroma_add_documents vs documents w = (r, w')
         ∧ add_documents documents self w = (r, self, w')
         ∧ (r = Returns tt →
            ∀ held, store_docs vs w = Some held →
              store_docs vs w' = Some (held ++ documents))).
Proof.
  split.
  - intros Hnone. unfold add_documents, bind at 1, get. rewrite Hnone.
    unfold bind, ret.
    by destruct (create_vector_store documents self w) as [[[?|?] ?] ?].
  - intros vs Hsome. unfold add_documents, bind, get, call, ret.
    rewrite Hsome.
    destruct (Chroma_add_documents vs documents w) as [r w'] eqn:Eadd.
    exists r, w'. split; [done|]. split; [by destruct r as [[]|]|].
    intros -> held Hheld.
    rewrite (add_documents_appends _ _ _ _ Eadd), Hheld. done.
Qed.

(** C6: with no store held, [search] returns the empty list and changes
    nothing, for every query and [k], and [get_retriever] raises
    [ValueError]; with a store held, what [search] returns has at most
    [k] documents. *)
Theorem search_and_get_retriever {chroma_laws : ChromaLaws} query k self w :
  (_vector_store self = None →
     search query k self w = (Returns [], self, w)
     ∧ get_retriever k self w
       = (Raises (ValueError "No vector store available"), self, w))
  ∧ (∀ vs found self' w',
       _vector_store self = Some vs →
       search query k self w = (Returns found, self', w') →
       Z.of_nat (length found) ≤ k).
Proof.
  split.
  - intros Hnone. unfold search, get_retriever, bind, get, ret, raise.
    by rewrite Hnone.
  - intros vs found self' w' Hsome. unfold search, bind, get, call, ret.
    rewrite Hsome.
    destruct (similarity_search vs query k w) as [[ds|e] w1] eqn:Esearch;
      intros E; simplify_eq.
    by eapply similarity_search_at_most.
Qed.
End VectorStoreManagerFacts.

(** ** [LLMHandler] *)
Section LLMHandlerFacts.
Context `{Config}.
Import LLMHandler.

Lemma lower_example : lower "Azure OpenAI-4" = "azure openai-4".
Proof. reflexivity. Qed.

Lemma lower_idempotent s : lower (lower s) = lower s.
Proof.
  induction s as [|c s IH]; [done|]. cbn. rewrite IH. f_equal.
  unfold lower_ascii.
  destruct (Nat.leb 65 (nat_of_ascii c) && Nat.leb (nat_of_ascii c) 90)%bool
    eqn:Eupper.
  - apply andb_prop in Eupper as [Hlo Hhi].
    apply Nat.leb_le in Hlo, Hhi.
    rewrite nat_ascii_embedding by lia.
    replace (Nat.leb (nat_of_ascii c + 32) 90) with false; [by rewrite andb_false_r|].
    symmetry. apply Nat.leb_gt. lia.
  - by rewrite Eupper.
Qed.

Lemma query_without_chain question self w :
  _qa_chain self = None →
  query question self w
  = (Raises (ValueError "QA chain not initialized. Call create_qa_chain first."),
     self, w).
Proof. intros Hnone. unfold query, bind, get, raise. by rewrite Hnone. Qed.

Lemma clear_memory_then_history {memory_laws : MemoryLaws} self w self' w' :
  clear_memory self w = (Returns tt, self', w') →
  get_conversation_history self' w' = (Returns [], self', w').
Proof.
  unfold clear_memory, get_conversation_history, bind, get, call, peek, ret.
  destruct (_memory self) as [m|] eqn:Hmem.
  - destruct (memory_clear m w) as [[[]|e] w1] eqn:Eclear;
      intros E; simplify_eq.
    rewrite Hmem. by rewrite (memory_clear_empties _ _ _ Eclear).
  - intros E. simplify_eq. by rewrite Hmem.
Qed.

Lemma history_without_memory self w :
  _memory self = None →
  get_conversation_history self w = (Returns [], self, w).
Proof.
  intros Hnone. unfold get_conversation_history, bind, get, ret.
  by rewrite Hnone.
Qed.

(** C10: [switch_provider] returns, stores the lowercased name in
    [provider], sets [_llm] and [_qa_chain] to [None], and changes neither
    [_memory], nor [temperature], nor the world;
    [get_conversation_history] returns the same list before and after. *)
Theorem switch_provider_keeps_history new_provider self w :
  let self' :=
    mk (lower new_provider) (temperature self) None (_memory self) None in
  switch_provider new_provider self w = (Returns tt, self', w)
  ∧ provider self' = lower new_provider
  ∧ _llm self' = None
  ∧ _qa_chain self' = None
  ∧ _memory self' = _memory self
  ∧ ∃ history,
      get_conversation_history self w = (Returns history, self, w)
      ∧ get_conversation_history self' w = (Returns history, self', w).
Proof.
  cbn. repeat split.
  unfold get_conversation_history, bind, get, peek, ret. cbn.
  destruct (_memory self) as [m|]; eauto.
Qed.
End LLMHandlerFacts.

Ltac fields :=
  cbn [RAGChatbot.document_processor RAGChatbot.vector_store_manager
       RAGChatbot.llm_handler RAGChatbot._is_initialized
       RAGChatbot.set_document_processor RAGChatbot.set_vector_store_manager
       RAGChatbot.set_llm_handler RAGChatbot.set_is_initialized] in *.

(** ** [RAGChatbot] *)
Section RAGChatbotFacts.
Context `{Config}.
Import RAGChatbot.

Lemma set_llm_handler_same self : set_llm_handler (llm_handler self) self = self.
Proof. by destruct self. Qed.

Lemma init_not_ready w0 self0 w1 :
  construct init w0 = (Returns self0, w1) → _is_initialized self0 = false.
Proof.
  unfold construct, init, DocumentProcessor.init_default,
    DocumentProcessor.init, VectorStoreManager.init_default,
    VectorStoreManager.init, LLMHandler.init_default, LLMHandler.init,
    bind, call, ret.
  destruct (RecursiveCharacterTextSplitter _ _ _ w0) as [[sp|e] wa]; [|done].
  destruct (OllamaEmbeddings _ _ wa) as [[emb|e] wb]; [|done].
  destruct (PersistentClient _ wb) as [[client|e] wc]; [|done].
  intros E. by simplify_eq.
Qed.

(** *** The flag across the methods *)
Lemma add_pdfs_keeps_flag u : keeps _is_initialized (add_pdfs u).
Proof. unfold add_pdfs, in_document_processor, in_vector_store_manager,
         in_llm_handler. keeps_all. Qed.

Lemma chat_keeps_flag q : keeps _is_initialized (chat q).
Proof. unfold chat, chat_via, in_llm_handler. keeps_all. Qed.

Lemma search_documents_keeps_flag q k :
  keeps _is_initialized (search_documents q k).
Proof. unfold search_documents, in_vector_store_manager. keeps_all. Qed.

Lemma clear_chat_history_keeps_flag : keeps _is_initialized clear_chat_history.
Proof. unfold clear_chat_history, in_llm_handler. keeps_all. Qed.

Lemma get_chat_history_keeps_flag : keeps _is_initialized get_chat_history.
Proof. unfold get_chat_history, in_llm_handler. keeps_all. Qed.

Lemma clear_vector_store_returns self w :
  ∃ self' w', VectorStoreManager.clear_vector_store self w
              = (Returns tt, self', w').
Proof.
  unfold VectorStoreManager.clear_vector_store, try_except, bind, get,
    call, peek, ret. cbn.
  destruct (delete_collection _ _ w) as [[[]|e] w1];
    destruct (os_path_exists _ w1); eauto;
    destruct (shutil_rmtree _ w1) as [[[]|e1] w2]; eauto;
    destruct (os_makedirs _ w2) as [[[]|e2] w3]; eauto.
Qed.

Lemma reset_flag self w r self' w' :
  reset self w = (r, self', w') →
  match r with
  | Returns _ => _is_initialized self' = false
  | Raises _ => _is_initialized self' = _is_initialized self
  end.
Proof.
  unfold reset, bind, in_vector_store_manager, in_llm_handler, on, assign.
  destruct (clear_vector_store_returns (vector_store_manager self) w)
    as (vsm & w1 & ->). fields.
  destruct (LLMHandler.clear_memory (llm_handler self) w1)
    as [[[[]|e] llm] w2]; intros E; by simplify_eq.
Qed.

(** The two ways [process_pdfs] can go. *)
Lemma process_pdfs_cases u self w :
  (∃ dp vsm llm w',
      stages_complete u self w dp vsm llm w'
      ∧ process_pdfs u self w = (Returns true, mk dp vsm llm true, w'))
  ∨ ((∀ dp vsm llm w', ¬ stages_complete u self w dp vsm llm w')
     ∧ ∃ self' w',
         process_pdfs u self w = (Returns false, self', w')
         ∧ _is_initialized self' = _is_initialized self).
Proof.
  unfold process_pdfs, stages_complete, try_except, bind,
    in_document_processor, in_vector_store_manager, in_llm_handler, on,
    assign, ret.
  destruct (chunks_of u (document_processor self) w)
    as [[[chunks|e] dp] w1] eqn:E1; fields;
    [|right; split; [intros; intros (?&?&?&?&?&?&?&?&?&?&?&?); congruence | eauto]].
  destruct (VectorStoreManager.create_vector_store chunks
              (vector_store_manager self) w1)
    as [[[store|e] vsm1] w2] eqn:E2; fields;
    [|right; split; [intros; intros (?&?&?&?&?&?&?&?&?&?&?&?); congruence | eauto]].
  destruct (VectorStoreManager.get_retriever 4 vsm1 w2)
    as [[[retriever|e] vsm] w3] eqn:E3; fields;
    [|right; split; [intros; intros (?&?&?&?&?&?&?&?&?&?&?&?); congruence | eauto]].
  destruct (LLMHandler.create_qa_chain retriever (llm_handler self) w3)
    as [[[chain|e] llm] w4] eqn:E4; fields;
    [|right; split; [intros; intros (?&?&?&?&?&?&?&?&?&?&?&?); congruence | eauto]].
  left. exists dp, vsm, llm, w4. split; [|done].
  by exists chunks, w1, store, vsm1, w2, retriever, w3, chain.
Qed.

Lemma serve_flag request self w reply self' w' :
  serve request self w = (reply, self', w') →
  _is_initialized self'
  = processed_after (_is_initialized self) (request, reply).
Proof.
  destruct request as [u|u|q|q k| | |]; unfold serve, answered.
  - destruct (process_pdfs_cases u self w)
      as [(dp & vsm & llm & w2 & _ & ->)|(_ & s2 & w2 & -> & Hflag)];
      intros E; by simplify_eq.
  - destruct (add_pdfs u self w) as [[r s1] w1] eqn:Em; intros E.
    simplify_eq. by apply add_pdfs_keeps_flag in Em.
  - destruct (chat q self w) as [[r s1] w1] eqn:Em; intros E.
    simplify_eq. by apply chat_keeps_flag in Em.
  - destruct (search_documents q k self w) as [[r s1] w1] eqn:Em; intros E.
    simplify_eq. by apply search_documents_keeps_flag in Em.
  - destruct (clear_chat_history self w) as [[r s1] w1] eqn:Em; intros E.
    simplify_eq. by apply clear_chat_history_keeps_flag in Em.
  - destruct (get_chat_history self w) as [[r s1] w1] eqn:Em; intros E.
    simplify_eq. by apply get_chat_history_keeps_flag in Em.
  - destruct (reset self w) as [[r s1] w1] eqn:Em; intros E.
    simplify_eq. apply reset_flag in Em. by destruct r as [[]|e].
Qed.

Lemma session_flag requests :
  ∀ self w log self' w',
    session requests self w = (log, self', w') →
    _is_initialized self' = fold_left processed_after log (_is_initialized self).
Proof.
  induction requests as [|request rest IH]; intros self w log self' w'.
  - cbn. intros E. by simplify_eq.
  - cbn [session].
    destruct (serve request self w) as [[reply self1] w1] eqn:Eserve.
    destruct (session rest self1 w1) as [[log1 self2] w2] eqn:Erest.
    intros E. simplify_eq. cbn [fold_left].
    rewrite <- (serve_flag _ _ _ _ _ _ Eserve). eauto.
Qed.

Lemma chat_via_not_ready query question self w :
  _is_initialized self = false →
  chat_via query question self w
  = (Returns (<["result" :=
                 VStr "Please upload a PDF file first to start chatting."]>
                (<["source_documents" := VDocs []]> ∅)),
     self, w).
Proof. intros Hflag. unfold chat_via, bind, get. by rewrite Hflag. Qed.

(** C1: on a chatbot as constructed and then used through any sequence
    of calls in which no [process_pdfs] has returned [True] since
    construction or since the last [reset] that returned, [is_ready] is
    false and [chat] returns, for every question, the dictionary with the
    fixed message under "result" and the empty list under
    "source_documents".  The chatbot and the world are left as they were,
    and the result is the same whatever stands for the handler's [query]
    method: the handler is not called. *)
Theorem chat_before_processing
    w0 self0 w1 requests log self w question :
  construct init w0 = (Returns self0, w1) →
  session requests self0 w1 = (log, self, w) →
  processed_since_reset log = false →
  let reply : gmap string Value :=
    <["result" := VStr "Please upload a PDF file first to start chatting."]>
      (<["source_documents" := VDocs []]> ∅) in
  is_ready self = false
  ∧ chat question self w = (Returns reply, self, w)
  ∧ reply !! "result"
    = Some (VStr "Please upload a PDF file first to start chatting.")
  ∧ reply !! "source_documents" = Some (VDocs [])
  ∧ chat question = chat_via LLMHandler.query question
  ∧ ∀ query, chat_via query question self w = (Returns reply, self, w).
Proof.
  intros Hinit Hsession Hlog reply.
  assert (_is_initialized self = false) as Hflag.
  { rewrite (session_flag _ _ _ _ _ _ Hsession).
    by rewrite (init_not_ready _ _ _ Hinit). }
  split; [done|].
  split; [by apply (chat_via_not_ready LLMHandler.query)|].
  split; [done|]. split; [done|]. split; [done|].
  intros query. by apply chat_via_not_ready.
Qed.

(** C2: [process_pdfs] never raises.  It returns [True] exactly when the
    chunking, the creation of the vector store and the initialisation of
    the QA chain all return, and then [is_ready] is true and the
    components and the world are the ones these stages left; otherwise it
    returns [False] and [is_ready] is what it was before the call. *)
Theorem process_pdfs_outcome u self w :
  ∃ b self' w',
    process_pdfs u self w = (Returns b, self', w')
    ∧ (b = true ↔ ∃ dp vsm llm w2, stages_complete u self w dp vsm llm w2)
    ∧ (b = true →
       is_ready self' = true
       ∧ stages_complete u self w (document_processor self')
           (vector_store_manager self') (llm_handler self') w')
    ∧ (b = false → is_ready self' = is_ready self).
Proof.
  destruct (process_pdfs_cases u self w)
    as [(dp & vsm & llm & w2 & Hall & E)|(Hnot & s2 & w2 & E & Hflag)].
  - exists true, (mk dp vsm llm true), w2. split; [done|].
    split; [split; eauto 6|]. split; [done|]. done.
  - exists false, s2, w2. split; [done|].
    split; [split; [done|]|].
    + intros (dp & vsm & llm & w3 & Hall). by destruct (Hnot _ _ _ _ Hall).
    + split; [done|]. done.
Qed.

(** C7: on an initialized chatbot, [chat] always returns.  When the
    handler's [query] raises, [chat] returns the dictionary with
    "Sorry, I encountered an error: " followed by the text of the
    exception under "result", and the empty list under
    "source_documents"; the handler's [query] raises [ValueError] when
    its QA chain is [None], and [chat] then returns that dictionary for
    the text of that error. *)
Theorem chat_catches question self w :
  _is_initialized self = true →
  (∃ d self' w', chat question self w = (Returns d, self', w'))
  ∧ (∀ e llm w',
       LLMHandler.query question (llm_handler self) w = (Raises e, llm, w') →
       ∃ d text,
         chat question self w = (Returns d, set_llm_handler llm self, w')
         ∧ d = <["result" := VStr text]> (<["source_documents" := VDocs []]> ∅)
         ∧ d !! "result" = Some (VStr text)
         ∧ d !! "source_documents" = Some (VDocs [])
         ∧ text = ("Sorry, I encountered an error: " ++ exc_str e)%string
         ∧ contains text (exc_str e))
  ∧ (LLMHandler._qa_chain (llm_handler self) = None →
     LLMHandler.query question (llm_handler self) w
     = (Raises (ValueError
                  "QA chain not initialized. Call create_qa_chain first."),
        llm_handler self, w)
     ∧ chat question self w
       = (Returns
            (<["result" :=
                VStr ("Sorry, I encountered an error: " ++
                      "QA chain not initialized. Call create_qa_chain first.")]>
               (<["source_documents" := VDocs []]> ∅)),
          self, w)).
Proof.
  intros Hflag.
  assert (∀ e llm w',
            LLMHandler.query question (llm_handler self) w = (Raises e, llm, w') →
            chat question self w
            = (Returns
                 (<["result" :=
                     VStr ("Sorry, I encountered an error: " ++ exc_str e)]>
                    (<["source_documents" := VDocs []]> ∅)),
               set_llm_handler llm self, w')) as Hraise.
  { intros e llm w' E.
    unfold chat, chat_via. unfold bind at 1. unfold get.
    rewrite Hflag. cbn [negb].
    unfold try_except, bind, in_llm_handler, on, ret. by rewrite E. }
  split; [|split].
  - destruct (LLMHandler.query question (llm_handler self) w)
      as [[[d|e] llm] w'] eqn:E.
    + exists d, (set_llm_handler llm self), w'.
      unfold chat, chat_via. unfold bind at 1. unfold get.
    rewrite Hflag. cbn [negb].
      unfold try_except, bind, in_llm_handler, on, ret. by rewrite E.
    + eauto.
  - intros e llm w' E. eexists _, _. split; [by apply Hraise|].
    split; [done|]. split; [done|]. split; [done|]. split; [done|].
    apply contains_suffix.
  - intros Hnone.
    pose proof (query_without_chain question _ w Hnone) as E.
    split; [done|]. rewrite (Hraise _ _ _ E).
    by rewrite set_llm_handler_same.
Qed.

(** C8: after [clear_chat_history] has returned, [get_chat_history]
    returns the empty list; [clear_chat_history] is [clear_memory] on the
    LLM handler, after which [get_conversation_history] returns the empty
    list; and [get_chat_history] returns the empty list when the handler
    has no memory yet. *)
Theorem history_empty_after_clear {memory_laws : MemoryLaws} self w :
  (∀ self' w',
      clear_chat_history self w = (Returns tt, self', w') →
      get_chat_history self' w' = (Returns [], self', w'))
  ∧ (∀ r llm w',
       LLMHandler.clear_memory (llm_handler self) w = (r, llm, w') →
       clear_chat_history self w = (r, set_llm_handler llm self, w')
       ∧ (r = Returns tt →
          LLMHandler.get_conversation_history llm w' = (Returns [], llm, w')))
  ∧ (LLMHandler._memory (llm_handler self) = None →
     get_chat_history self w = (Returns [], self, w)).
Proof.
  split; [|split].
  - intros self' w'. unfold clear_chat_history, get_chat_history,
      in_llm_handler, on.
    destruct (LLMHandler.clear_memory (llm_handler self) w)
      as [[r llm] w1] eqn:Eclear.
    intros E. simplify_eq. fields.
    by rewrite (clear_memory_then_history _ _ _ _ Eclear).
  - intros r llm w' Eclear. split.
    + unfold clear_chat_history, in_llm_handler, on. by rewrite Eclear.
    + intros ->. by eapply clear_memory_then_history.
  - intros Hnone. unfold get_chat_history, in_llm_handler, on.
    rewrite (history_without_memory _ _ Hnone).
    by rewrite set_llm_handler_same.
Qed.
End RAGChatbotFacts.

(** ** The reference libraries satisfy the laws *)
Section RefFacts.
Import Ref.

Lemma ref_chroma_laws : ChromaLaws.
Proof.
  split; cbn.
  - intros c name w w'.
    destruct (db w !! name) eqn:Hname; intros E; simplify_eq.
    cbn. apply lookup_delete_eq.
  - intros docs emb c name w store w'.
    destruct (server_up w); intros E; simplify_eq.
    cbn. split; [apply lookup_insert_eq | done].
  - intros store docs w w'.
    destruct (db w !! store) eqn:Hstore; [|intros E; simplify_eq].
    destruct (server_up w); intros E; simplify_eq.
    cbn. apply lookup_insert_eq.
  - intros store query k w found w'.
    destruct (db w !! store) eqn:Hstore; [|intros E; simplify_eq].
    destruct (decide (0 < k)); intros E; simplify_eq.
    rewrite length_take. lia.
Qed.

Lemma ref_memory_laws : MemoryLaws.
Proof.
  split. intros m w w'. cbn. intros E. simplify_eq. cbn.
  destruct (decide (m < length (heap w))%nat) as [Hlt|Hge].
  - by rewrite list_lookup_insert_eq.
  - rewrite list_insert_ge by lia. by rewrite lookup_ge_None_2 by lia.
Qed.
End RefFacts.

(** ** The properties on the sample inputs *)
Section Samples.
Import Ref.

Lemma chat_before_processing_witness :
  construct RAGChatbot.init empty_world = (Returns bot, empty_world)
  ∧ session requests bot empty_world
    = (after_requests.1.1, after_requests.1.2, after_requests.2)
  ∧ processed_since_reset after_requests.1.1 = false
  ∧ RAGChatbot.chat "hello" after_requests.1.2 after_requests.2
    = (Returns
         (<["result" :=
             VStr "Please upload a PDF file first to start chatting."]>
            (<["source_documents" := VDocs []]> ∅)),
       after_requests.1.2, after_requests.2).
Proof.
  assert (construct RAGChatbot.init empty_world = (Returns bot, empty_world))
    as Hinit by reflexivity.
  pose proof (triple_eta (session requests bot empty_world)) as Hsession.
  fold after_requests in Hsession.
  assert (processed_since_reset after_requests.1.1 = false)
    as Hlog by reflexivity.
  split; [exact Hinit|]. split; [exact Hsession|]. split; [exact Hlog|].
  exact (proj1 (proj2
    (chat_before_processing _ _ _ _ _ _ _ "hello" Hinit Hsession Hlog))).
Defined.


Lemma add_documents_creates_or_appends_witness :
  VectorStoreManager._vector_store holding = Some "pdf_documents"
  ∧ ∃ r w',
      Chroma_add_documents "pdf_documents" [page "new"] old_world = (r, w')
      ∧ VectorStoreManager.add_documents [page "new"] holding old_world
        = (r, holding, w')
      ∧ (r = Returns tt →
         ∀ held,
           store_docs "pdf_documents" old_world = Some held →
           store_docs "pdf_documents" w' = Some (held ++ [page "new"])).
Proof.
  split; [reflexivity|].
  exact (proj2 (add_documents_creates_or_appends
                  (chroma_laws := ref_chroma_laws)
                  [page "new"] holding old_world)
               "pdf_documents" eq_refl).
Defined.

Lemma search_and_get_retriever_witness :
  VectorStoreManager._vector_store manager = None
  ∧ VectorStoreManager.search "older" 1 manager old_world
    = (Returns [], manager, old_world)
  ∧ VectorStoreManager.get_retriever 1 manager old_world
    = (Raises (ValueError "No vector store available"), manager, old_world)
  ∧ VectorStoreManager.search "older" 1 holding old_world
    = (Returns [page "old"], holding, old_world)
  ∧ Z.of_nat (length [page "old"]) ≤ 1.
Proof.
  assert (VectorStoreManager.search "older" 1 holding old_world
          = (Returns [page "old"], holding, old_world))
    as Hcall by reflexivity.
  pose proof (search_and_get_retriever (chroma_laws := ref_chroma_laws)
                "older" 1 manager old_world) as [Hnone _].
  pose proof (search_and_get_retriever (chroma_laws := ref_chroma_laws)
                "older" 1 holding old_world) as [_ Hsome].
  split; [reflexivity|].
  split; [exact (proj1 (Hnone eq_refl))|].
  split; [exact (proj2 (Hnone eq_refl))|].
  split; [exact Hcall|].
  exact (Hsome "pdf_documents" _ _ _ eq_refl Hcall).
Defined.

Lemma chat_catches_witness :
  RAGChatbot._is_initialized switched = true
  ∧ LLMHandler._qa_chain (RAGChatbot.llm_handler switched) = None
  ∧ RAGChatbot.chat "and now?" switched after_question.2
    = (Returns
         (<["result" :=
             VStr ("Sorry, I encountered an error: " ++
                   "QA chain not initialized. Call create_qa_chain first.")]>
            (<["source_documents" := VDocs []]> ∅)),
       switched, after_question.2).
Proof.
  assert (RAGChatbot._is_initialized switched = true)
    as Hready by reflexivity.
  assert (LLMHandler._qa_chain (RAGChatbot.llm_handler switched) = None)
    as Hnone by reflexivity.
  split; [exact Hready|]. split; [exact Hnone|].
  exact (proj2 (proj2 (proj2
    (chat_catches "and now?" switched after_question.2 Hready)) Hnone)).
Defined.

Lemma history_empty_after_clear_witness :
  RAGChatbot.get_chat_history after_question.1.2 after_question.2
  = (Returns [HumanMessage "what is it about?";
              AIMessage "Answer to: what is it about?"],
     after_question.1.2, after_question.2)
  ∧ RAGChatbot.clear_chat_history after_question.1.2 after_question.2
    = (Returns tt, after_clear.1.2, after_clear.2)
  ∧ RAGChatbot.get_chat_history after_clear.1.2 after_clear.2
    = (Returns [], after_clear.1.2, after_clear.2).
Proof.
  assert (after_clear.1.1 = Returns tt) as Hreturns by reflexivity.
  pose proof (triple_eta after_clear) as Hclear.
  rewrite Hreturns in Hclear. unfold after_clear at 1 in Hclear.
  split; [reflexivity|]. split; [exact Hclear|].
  exact (proj1 (history_empty_after_clear (memory_laws := ref_memory_laws)
                  after_question.1.2 after_question.2)
               _ _ Hclear).
Defined.

(** A second [process_pdfs] that fails, here because the model server is
    down, returns [False] and leaves a ready chatbot ready. *)
Example process_pdfs_failure_keeps_ready :
  RAGChatbot.is_ready after_question.1.2 = true
  ∧ after_failure.1.1 = Returns false
  ∧ RAGChatbot.is_ready after_failure.1.2 = true.
Proof. repeat split; reflexivity. Qed.

(** The chunks of the two sample files, in the order of the files. *)
Example process_multiple_pdfs_sample :
  (DocumentProcessor.process_multiple_pdfs [report; notes]
     (RAGChatbot.document_processor bot) empty_world).1.1
  = Returns [mkDocument "RAG" [("source", "/app/pdfFiles/report.pdf")];
             mkDocument "hi" [("source", "/app/pdfFiles/notes.pdf")]].
Proof. reflexivity. Qed.
End Samples.

(** * More properties of the code *)

(** ** Predicates kept by statements *)
Section PreservesFacts.
Context `{Libraries}.

Lemma preserves_ret {S A} (P : S → Prop) (a : A) : preserves P (ret a).
Proof. intros s w r s' w' E HP. unfold ret in E. by simplify_eq. Qed.

Lemma preserves_raise {S A} (P : S → Prop) e : preserves P (raise (A := A) e).
Proof. intros s w r s' w' E HP. unfold raise in E. by simplify_eq. Qed.

Lemma preserves_get {S A} (P : S → Prop) (g : S → A) : preserves P (get g).
Proof. intros s w r s' w' E HP. unfold get in E. by simplify_eq. Qed.

Lemma preserves_peek {S A} (P : S → Prop) (g : W → A) : preserves P (peek g).
Proof. intros s w r s' w' E HP. unfold peek in E. by simplify_eq. Qed.

Lemma preserves_call {S A} (P : S → Prop) (g : W → outcome A * W) :
  preserves P (call g).
Proof.
  intros s w r s' w' E HP. unfold call in E.
  destruct (g w) as [r0 w0]. by simplify_eq.
Qed.

Lemma preserves_assign {S} (P : S → Prop) (g : S → S) :
  (∀ s, P s → P (g s)) → preserves P (assign g).
Proof. intros Hg s w r s' w' E HP. unfold assign in E. simplify_eq. eauto. Qed.

Lemma preserves_bind {S A B} (P : S → Prop) (m : M S A) (k : A → M S B) :
  preserves P m → (∀ a, preserves P (k a)) → preserves P (bind m k).
Proof.
  intros Hm Hk s w r s' w' E HP. unfold bind in E.
  destruct (m s w) as [[[a|e] s1] w1] eqn:Em.
  - eapply Hk; eauto.
  - simplify_eq. eauto.
Qed.

Lemma preserves_try_except {S A} (P : S → Prop) (m : M S A) handler :
  preserves P m → (∀ e, preserves P (handler e)) →
  preserves P (try_except m handler).
Proof.
  intros Hm Hh s w r s' w' E HP. unfold try_except in E.
  destruct (m s w) as [[[a|e] s1] w1] eqn:Em.
  - simplify_eq. eauto.
  - eapply Hh; eauto.
Qed.

Lemma preserves_on {S T A} (P : T → Prop) (Q : S → Prop)
    (field : T → S) set_field (m : M S A) :
  preserves Q m →
  (∀ t, P t → Q (field t)) →
  (∀ s t, P t → Q s → P (set_field s t)) →
  preserves P (on field set_field m).
Proof.
  intros Hm Hfield Hset t w r t' w' E HP. unfold on in E.
  destruct (m (field t) w) as [[r0 s1] w1] eqn:Em. simplify_eq.
  apply Hset; [done|]. eapply Hm; eauto.
Qed.

(** A statement that keeps the whole object, run on a component. *)
Lemma on_keeps_self {S T A} (field : T → S) set_field (m : M S A) t w r t' w' :
  keeps id m →
  (∀ t, set_field (field t) t = t) →
  on field set_field m t w = (r, t', w') → t' = t.
Proof.
  intros Hm Hset E. unfold on in E.
  destruct (m (field t) w) as [[r0 s1] w1] eqn:Em. simplify_eq.
  apply Hm in Em. unfold id in Em. by rewrite Em, Hset.
Qed.
End PreservesFacts.

Ltac preserves_step :=
  first
    [ apply preserves_ret | apply preserves_raise | apply preserves_get
    | apply preserves_peek | apply preserves_call
    | apply preserves_assign; intros ?; cbn; intuition eauto
    | apply preserves_bind; [| intros ?]
    | apply preserves_try_except; [| intros ?]
    | match goal with
      | |- preserves _ (match ?x with _ => _ end) => destruct x
      end ].

Ltac preserves_all := repeat preserves_step.

(** ** The components keep themselves *)
Section SelfKept.
Context `{Config}.

Lemma set_document_processor_same self :
  RAGChatbot.set_document_processor (RAGChatbot.document_processor self) self
  = self.
Proof. by destruct self. Qed.

Lemma set_vector_store_manager_same self :
  RAGChatbot.set_vector_store_manager (RAGChatbot.vector_store_manager self)
    self = self.
Proof. by destruct self. Qed.

Lemma query_keeps_self q : keeps id (LLMHandler.query q).
Proof. unfold LLMHandler.query. keeps_all. Qed.

Lemma clear_memory_keeps_self : keeps id LLMHandler.clear_memory.
Proof. unfold LLMHandler.clear_memory. keeps_all. Qed.

Lemma get_conversation_history_keeps_self :
  keeps id LLMHandler.get_conversation_history.
Proof. unfold LLMHandler.get_conversation_history. keeps_all. Qed.

Lemma search_keeps_self q k : keeps id (VectorStoreManager.search q k).
Proof. unfold VectorStoreManager.search. keeps_all. Qed.

Lemma get_retriever_keeps_self k : keeps id (VectorStoreManager.get_retriever k).
Proof. unfold VectorStoreManager.get_retriever. keeps_all. Qed.

Lemma clear_vector_store_keeps_self :
  keeps id VectorStoreManager.clear_vector_store.
Proof. unfold VectorStoreManager.clear_vector_store. keeps_all. Qed.

Lemma process_pdf_keeps_self file : keeps id (DocumentProcessor.process_pdf file).
Proof.
  unfold DocumentProcessor.process_pdf, DocumentProcessor.save_uploaded_file,
    DocumentProcessor.load_pdf, DocumentProcessor.split_documents.
  keeps_all.
Qed.

Lemma clear_vector_store_swallows self w :
  ∃ w', VectorStoreManager.clear_vector_store self w = (Returns tt, self, w').
Proof.
  destruct (clear_vector_store_returns self w) as (self' & w' & E).
  exists w'. rewrite E. f_equal. f_equal.
  by apply clear_vector_store_keeps_self in E.
Qed.

(** X3: [clear_vector_store] never raises, whatever the database and the
    file system do, and leaves the manager as it was: in particular
    [_vector_store] still holds the store it held.  The directory is
    removed and made again only when it exists. *)
Theorem clear_vector_store_never_raises self w :
  (∃ w', VectorStoreManager.clear_vector_store self w = (Returns tt, self, w'))
  ∧ ∀ r w1,
      delete_collection (VectorStoreManager.chroma_client self)
        (VectorStoreManager.collection_name self) w = (r, w1) →
      os_path_exists (VectorStoreManager.persist_directory self) w1 = false →
      VectorStoreManager.clear_vector_store self w = (Returns tt, self, w1).
Proof.
  split; [apply clear_vector_store_swallows|].
  intros r w1 Hdelete Hmissing.
  unfold VectorStoreManager.clear_vector_store, try_except, bind, get, call,
    peek, ret.
  rewrite Hdelete. destruct r as [[]|e]; by rewrite Hmissing.
Qed.

Lemma chat_keeps_self q self w r self' w' :
  RAGChatbot.chat q self w = (r, self', w') → self' = self.
Proof.
  unfold RAGChatbot.chat, RAGChatbot.chat_via, bind at 1, get.
  destruct (negb (RAGChatbot._is_initialized self));
    [unfold ret; intros E; by simplify_eq|].
  unfold try_except, bind, ret.
  destruct (RAGChatbot.in_llm_handler _ self w) as [[[d|e] s1] w1] eqn:E;
    intros E'; simplify_eq;
    eapply on_keeps_self in E;
    eauto using query_keeps_self, set_llm_handler_same.
Qed.

Lemma search_documents_keeps_self q k self w r self' w' :
  RAGChatbot.search_documents q k self w = (r, self', w') → self' = self.
Proof.
  intros E. unfold RAGChatbot.search_documents in E.
  eapply on_keeps_self in E;
    eauto using search_keeps_self, set_vector_store_manager_same.
Qed.

Lemma clear_chat_history_keeps_self self w r self' w' :
  RAGChatbot.clear_chat_history self w = (r, self', w') → self' = self.
Proof.
  intros E. unfold RAGChatbot.clear_chat_history in E.
  eapply on_keeps_self in E;
    eauto using clear_memory_keeps_self, set_llm_handler_same.
Qed.

Lemma get_chat_history_reads self w :
  ∃ history, RAGChatbot.get_chat_history self w = (Returns history, self, w).
Proof.
  unfold RAGChatbot.get_chat_history, RAGChatbot.in_llm_handler, on,
    LLMHandler.get_conversation_history, bind, get, peek, ret.
  destruct (LLMHandler._memory (RAGChatbot.llm_handler self));
    rewrite set_llm_handler_same; eauto.
Qed.

(** X4: [chat], [search_documents], [clear_chat_history] and
    [get_chat_history] assign no field of the chatbot or of its
    components; [get_chat_history] always returns and leaves the world
    as it was too. *)
Theorem chatbot_readers_keep_self self w :
  (∀ q r self' w', RAGChatbot.chat q self w = (r, self', w') → self' = self)
  ∧ (∀ q k r self' w',
       RAGChatbot.search_documents q k self w = (r, self', w') → self' = self)
  ∧ (∀ r self' w',
       RAGChatbot.clear_chat_history self w = (r, self', w') → self' = self)
  ∧ ∃ history, RAGChatbot.get_chat_history self w = (Returns history, self, w).
Proof.
  split; [|split; [|split]].
  - intros q. apply chat_keeps_self.
  - intros q k. apply search_documents_keeps_self.
  - apply clear_chat_history_keeps_self.
  - apply get_chat_history_reads.
Qed.
End SelfKept.

(** ** [add_pdfs] and [reset] *)
Section AddAndReset.
Context `{Config}.
Import RAGChatbot.

(** The two ways [add_pdfs] can go. *)
Lemma add_pdfs_cases u self w :
  (∃ dp vsm llm w',
      add_stages_complete u self w dp vsm llm w'
      ∧ add_pdfs u self w
        = (Returns true, mk dp vsm llm (_is_initialized self), w'))
  ∨ ((∀ dp vsm llm w', ¬ add_stages_complete u self w dp vsm llm w')
     ∧ ∃ self' w',
         add_pdfs u self w = (Returns false, self', w')
         ∧ _is_initialized self' = _is_initialized self).
Proof.
  unfold add_pdfs, add_stages_complete, try_except, bind,
    in_document_processor, in_vector_store_manager, in_llm_handler, on, ret.
  destruct (chunks_of u (document_processor self) w)
    as [[[chunks|e] dp] w1] eqn:E1; fields;
    [|right; split; [intros; intros (?&?&?&?&?&?&?&?&?&?&?); congruence | eauto]].
  destruct (VectorStoreManager.add_documents chunks
              (vector_store_manager self) w1)
    as [[[[]|e] vsm1] w2] eqn:E2; fields;
    [|right; split; [intros; intros (?&?&?&?&?&?&?&?&?&?&?); congruence | eauto]].
  destruct (VectorStoreManager.get_retriever 4 vsm1 w2)
    as [[[retriever|e] vsm] w3] eqn:E3; fields;
    [|right; split; [intros; intros (?&?&?&?&?&?&?&?&?&?&?); congruence | eauto]].
  destruct (LLMHandler.create_qa_chain retriever (llm_handler self) w3)
    as [[[chain|e] llm] w4] eqn:E4; fields;
    [|right; split; [intros; intros (?&?&?&?&?&?&?&?&?&?&?); congruence | eauto]].
  left. exists dp, vsm, llm, w4. split; [|done].
  by exists chunks, w1, vsm1, w2, retriever, w3, chain.
Qed.

(** X1: [add_pdfs] never raises and never changes [is_ready].  It returns
    [True] exactly when the chunking, [add_documents], [get_retriever] and
    [create_qa_chain] all return.  On a chatbot that is not ready it
    leaves [chat] answering with the upload-first message, also when it
    returned [True]. *)
Theorem add_pdfs_outcome u self w :
  ∃ b self' w',
    add_pdfs u self w = (Returns b, self', w')
    ∧ is_ready self' = is_ready self
    ∧ (b = true ↔ ∃ dp vsm llm w2, add_stages_complete u self w dp vsm llm w2)
    ∧ (is_ready self = false →
       ∀ question,
         chat question self' w'
         = (Returns
              (<["result" :=
                  VStr "Please upload a PDF file first to start chatting."]>
                 (<["source_documents" := VDocs []]> ∅)),
            self', w')).
Proof.
  destruct (add_pdfs_cases u self w)
    as [(dp & vsm & llm & w2 & Hall & E)|(Hnot & s2 & w2 & E & Hflag)].
  - exists true, (mk dp vsm llm (_is_initialized self)), w2.
    split; [done|]. split; [done|]. split; [split; eauto 6|].
    intros Hready question. by apply chat_via_not_ready.
  - exists false, s2, w2. split; [done|]. split; [done|]. split.
    + split; [done|].
      intros (dp & vsm & llm & w3 & Hall). by destruct (Hnot _ _ _ _ Hall).
    + intros Hready question. apply chat_via_not_ready.
      unfold is_ready in Hready. congruence.
Qed.

(** X2: when [reset] returns, the chatbot is the one before with
    [_is_initialized] false (the manager still holds its store object and
    the handler its chain, model and memory objects), and
    [get_chat_history] returns the empty list.  [reset] raises only what
    the memory's [clear] raises, and then leaves the chatbot as it was,
    [is_ready] included. *)
Theorem reset_outcome {memory_laws : MemoryLaws} self w r self' w' :
  reset self w = (r, self', w') →
  match r with
  | Returns _ =>
      self' = set_is_initialized false self
      ∧ get_chat_history self' w' = (Returns [], self', w')
  | Raises e =>
      self' = self
      ∧ ∃ m w1,
          LLMHandler._memory (llm_handler self) = Some m
          ∧ memory_clear m w1 = (Raises e, w')
  end.
Proof.
  unfold reset, bind, in_vector_store_manager, in_llm_handler, on, assign.
  destruct (clear_vector_store_swallows (vector_store_manager self) w)
    as (w1 & ->). fields. rewrite set_vector_store_manager_same.
  destruct (LLMHandler.clear_memory (llm_handler self) w1)
    as [[[[]|e] llm] w2] eqn:Eclear; intros E; simplify_eq.
  - pose proof (clear_memory_keeps_self _ _ _ _ _ Eclear) as Hllm.
    unfold id in Hllm. subst llm. rewrite set_llm_handler_same.
    split; [done|].
    unfold get_chat_history, in_llm_handler, on. fields.
    rewrite (clear_memory_then_history _ _ _ _ Eclear).
    by destruct self.
  - pose proof (clear_memory_keeps_self _ _ _ _ _ Eclear) as Hllm.
    unfold id in Hllm. subst llm. rewrite set_llm_handler_same.
    split; [done|].
    unfold LLMHandler.clear_memory, bind, get, call, ret in Eclear.
    destruct (LLMHandler._memory (llm_handler self)) as [m|]; [|done].
    destruct (memory_clear m w1) as [[[]|e'] w3] eqn:Em; simplify_eq.
    eauto.
Qed.

(** X11: when [process_pdf] raises on a file, [process_multiple_pdfs]
    raises the same exception on every list that has this file after
    files that were processed, whatever follows it; [process_pdfs] then
    returns [False] with the vector store manager, the handler and
    [is_ready] as they were, in the world the failing [process_pdf] left
    (no call to the database or the models was made). *)
Theorem failing_file_aborts_batch
    before file after self w chunks dp1 w1 e dp2 w2 :
  DocumentProcessor.process_multiple_pdfs before (document_processor self) w
  = (Returns chunks, dp1, w1) →
  DocumentProcessor.process_pdf file dp1 w1 = (Raises e, dp2, w2) →
  DocumentProcessor.process_multiple_pdfs (before ++ file :: after)
    (document_processor self) w = (Raises e, dp2, w2)
  ∧ process_pdfs (FileList (before ++ file :: after)) self w
    = (Returns false, set_document_processor dp2 self, w2).
Proof.
  intros Hbefore Hfile.
  assert (DocumentProcessor.process_multiple_pdfs (before ++ file :: after)
            (document_processor self) w = (Raises e, dp2, w2)) as Hbatch.
  { revert Hbefore. unfold DocumentProcessor.process_multiple_pdfs.
    rewrite !process_multiple_pdfs_loop_acc. unfold bind, ret.
    rewrite process_each_app. unfold bind, ret.
    destruct (DocumentProcessor.process_each before (document_processor self) w)
      as [[[lists|e0] s0] w0]; intros E; simplify_eq.
    cbn [DocumentProcessor.process_each]. unfold bind. by rewrite Hfile. }
  split; [done|].
  unfold process_pdfs, try_except, bind at 1, in_document_processor, on.
  cbn [chunks_of]. by rewrite Hbatch.
Qed.
End AddAndReset.

(** ** The model and the memory of the handler *)
Section HandlerCaches.
Context `{Config}.
Import LLMHandler.

Lemma get_llm_returns self w llm self' w' :
  get_llm self w = (Returns llm, self', w') →
  _llm self' = Some llm
  ∧ _memory self' = _memory self
  ∧ _qa_chain self' = _qa_chain self
  ∧ get_llm self' w' = (Returns llm, self', w').
Proof.
  unfold get_llm at 1, bind at 1, get.
  destruct (_llm self) as [cached|] eqn:Hcached.
  - unfold ret. intros E. simplify_eq. repeat split; try done.
    unfold get_llm, bind, get, ret. by rewrite Hcached.
  - assert (keeps id (if String.eqb (provider self) "azure"
                      then _create_azure_llm else _create_ollama_llm))
      as Hkeeps.
    { unfold _create_azure_llm, _create_ollama_llm. keeps_all. }
    unfold bind, get, assign, ret.
    destruct ((if String.eqb (provider self) "azure"
               then _create_azure_llm else _create_ollama_llm) self w)
      as [[[made|e] s1] w1] eqn:Emake; intros E; simplify_eq.
    apply Hkeeps in Emake. unfold id in Emake. subst s1. done.
Qed.

Lemma get_memory_returns self w m self' w' :
  get_memory self w = (Returns m, self', w') →
  _memory self' = Some m
  ∧ (∀ held, _memory self = Some held → held = m ∧ self' = self ∧ w' = w)
  ∧ _llm self' = _llm self
  ∧ _qa_chain self' = _qa_chain self
  ∧ get_memory self' w' = (Returns m, self', w').
Proof.
  unfold get_memory at 1, bind at 1, get.
  destruct (_memory self) as [cached|] eqn:Hcached.
  - unfold ret. intros E. simplify_eq.
    split; [done|]. split; [intros held Hheld; by simplify_eq|].
    split; [done|]. split; [done|].
    unfold get_memory, bind, get, ret. by rewrite Hcached.
  - unfold bind, call, assign, ret.
    destruct (ConversationBufferMemory "chat_history" true "result" w)
      as [[made|e] w1]; intros E; simplify_eq.
    split; [done|]. split; [intros held Hheld; by simplify_eq|]. done.
Qed.

(** X7: what [get_llm] and [get_memory] return is kept in [_llm] and
    [_memory], and the next call returns the same object without calling
    any library: the handler and the world are left as they are. *)
Theorem getters_cache self w :
  (∀ llm self' w',
      get_llm self w = (Returns llm, self', w') →
      _llm self' = Some llm ∧ get_llm self' w' = (Returns llm, self', w'))
  ∧ (∀ m self' w',
       get_memory self w = (Returns m, self', w') →
       _memory self' = Some m ∧ get_memory self' w' = (Returns m, self', w')).
Proof.
  split.
  - intros llm self' w' E. by destruct (get_llm_returns _ _ _ _ _ E) as (?&?&?&?).
  - intros m self' w' E.
    by destruct (get_memory_returns _ _ _ _ _ E) as (?&?&?&?&?).
Qed.

Lemma get_llm_azure_without_credentials self w :
  provider self = "azure" →
  _llm self = None →
  (truthy_str AZURE_OPENAI_API_KEY && truthy_str AZURE_OPENAI_ENDPOINT)%bool
  = false →
  get_llm self w = (Raises (ValueError azure_credentials_message), self, w).
Proof.
  intros Hprovider Hnone Hcreds.
  unfold get_llm, bind, get. rewrite Hnone, Hprovider. cbn [String.eqb].
  replace ("azure" =? "azure")%string with true by reflexivity.
  unfold _create_azure_llm.
  replace (negb (truthy_str AZURE_OPENAI_API_KEY)
           || negb (truthy_str AZURE_OPENAI_ENDPOINT))%bool with true.
  - done.
  - by destruct (truthy_str AZURE_OPENAI_API_KEY),
         (truthy_str AZURE_OPENAI_ENDPOINT).
Qed.

Lemma create_qa_chain_azure_without_credentials retriever self w :
  provider self = "azure" →
  _llm self = None →
  (truthy_str AZURE_OPENAI_API_KEY && truthy_str AZURE_OPENAI_ENDPOINT)%bool
  = false →
  ∀ chain self' w', create_qa_chain retriever self w ≠ (Returns chain, self', w').
Proof.
  intros Hprovider Hnone Hcreds chain self' w'.
  unfold create_qa_chain, bind at 1, call.
  destruct (PromptTemplate _ _ w) as [[prompt|e] w1]; [|done].
  unfold bind at 1.
  by rewrite (get_llm_azure_without_credentials _ _ Hprovider Hnone Hcreds).
Qed.

(** X8: with the provider "azure", no model cached, and the API key or
    the endpoint unset or empty, [get_llm] raises [ValueError] without
    calling any library, and [process_pdfs] and [add_pdfs] return [False]
    for every upload. *)
Theorem azure_without_credentials u self w :
  provider (RAGChatbot.llm_handler self) = "azure" →
  _llm (RAGChatbot.llm_handler self) = None →
  (truthy_str AZURE_OPENAI_API_KEY && truthy_str AZURE_OPENAI_ENDPOINT)%bool
  = false →
  get_llm (RAGChatbot.llm_handler self) w
  = (Raises (ValueError azure_credentials_message),
     RAGChatbot.llm_handler self, w)
  ∧ (∃ self' w', RAGChatbot.process_pdfs u self w = (Returns false, self', w'))
  ∧ (∃ self' w', RAGChatbot.add_pdfs u self w = (Returns false, self', w')).
Proof.
  intros Hprovider Hnone Hcreds.
  split; [by apply get_llm_azure_without_credentials|]. split.
  - destruct (process_pdfs_cases u self w)
      as [(dp & vsm & llm & w2 & Hall & E)|(_ & s2 & w2 & E & _)]; [|eauto].
    destruct Hall as (? & ? & ? & ? & ? & retriever & w3 & chain & _ & _ & _ & Hchain).
    by destruct (create_qa_chain_azure_without_credentials retriever _ w3
                   Hprovider Hnone Hcreds _ _ _ Hchain).
  - destruct (add_pdfs_cases u self w)
      as [(dp & vsm & llm & w2 & Hall & E)|(_ & s2 & w2 & E & _)]; [|eauto].
    destruct Hall as (? & ? & ? & ? & retriever & w3 & chain & _ & _ & _ & Hchain).
    by destruct (create_qa_chain_azure_without_credentials retriever _ w3
                   Hprovider Hnone Hcreds _ _ _ Hchain).
Qed.

(** X9: [get_llm], with no model cached, builds the backend that
    [model_info] names, from the settings [model_info] shows.  With the
    provider "azure", [model_info] names "Azure OpenAI" with the
    deployment and the endpoint, and [get_llm] raises [ValueError] when
    the key or the endpoint is unset or empty and is otherwise one call to
    [AzureChatOpenAI] for that endpoint and deployment.  With any other
    provider name, known or not, [model_info] names "Ollama" with the
    local model and its URL, and [get_llm] is one call to [OllamaLLM] for
    that model and URL.  In both cases [get_llm] caches what the call
    returns and leaves the handler as it was when the call raises. *)
Theorem model_info_matches_backend self w :
  (provider self = "azure"
   ∧ ∃ endpoint,
       AZURE_OPENAI_ENDPOINT = endpoint
       ∧ ModelInfo.model_info self !! "provider" = Some (Some "Azure OpenAI")
       ∧ ModelInfo.model_info self !! "model" = Some (Some AZURE_OPENAI_DEPLOYMENT)
       ∧ ModelInfo.model_info self !! "endpoint" = Some endpoint
       ∧ (_llm self = None →
          get_llm self w
          = if (truthy_str AZURE_OPENAI_API_KEY && truthy_str endpoint)%bool
            then
              match AzureChatOpenAI (default "" endpoint)
                      AZURE_OPENAI_DEPLOYMENT (default "" AZURE_OPENAI_API_KEY)
                      AZURE_OPENAI_API_VERSION (temperature self) w with
              | (Returns llm, w') => (Returns llm, set_llm (Some llm) self, w')
              | (Raises e, w') => (Raises e, self, w')
              end
            else (Raises (ValueError azure_credentials_message), self, w)))
  ∨ (provider self ≠ "azure"
     ∧ ∃ model url,
         ModelInfo.model_info self !! "provider" = Some (Some "Ollama")
         ∧ ModelInfo.model_info self !! "model" = Some (Some model)
         ∧ ModelInfo.model_info self !! "endpoint" = Some (Some url)
         ∧ (_llm self = None →
            get_llm self w
            = match OllamaLLM model url (temperature self) w with
              | (Returns llm, w') => (Returns llm, set_llm (Some llm) self, w')
              | (Raises e, w') => (Raises e, self, w')
              end)).
Proof.
  unfold ModelInfo.model_info.
  destruct (String.eqb (provider self) "azure") eqn:Hazure.
  - left. pose proof Hazure as Heq. apply String.eqb_eq in Heq.
    split; [done|]. exists AZURE_OPENAI_ENDPOINT.
    split; [done|]. split; [done|]. split; [done|]. split; [done|].
    intros Hnone. unfold get_llm, bind at 1, get. rewrite Hnone.
    unfold bind at 1, get. unfold bind at 1. rewrite Hazure.
    unfold _create_azure_llm.
    destruct (truthy_str AZURE_OPENAI_API_KEY),
      (truthy_str AZURE_OPENAI_ENDPOINT); cbn [negb orb andb]; try done.
    unfold bind, get, call, assign, ret.
    by destruct (AzureChatOpenAI _ _ _ _ _ w) as [[llm|e] w1].
  - right. pose proof Hazure as Hne. apply String.eqb_neq in Hne.
    split; [done|]. exists OLLAMA_MODEL, OLLAMA_BASE_URL.
    split; [done|]. split; [done|]. split; [done|].
    intros Hnone. unfold get_llm, bind at 1, get. rewrite Hnone.
    unfold bind at 1, get. unfold bind at 1. rewrite Hazure.
    unfold _create_ollama_llm, bind, get, call, assign, ret.
    by destruct (OllamaLLM _ _ _ w) as [[llm|e] w1].
Qed.

(** X10: the provider name a handler holds is always lowercase: it is
    after [__init__] and after [switch_provider], and the other methods
    do not assign it.  So the choice of "azure" does not depend on the
    case of the name given: after [switch_provider] to a name that
    lowercases to "azure", [model_info] names "Azure OpenAI". *)
Theorem provider_is_lowercase :
  (∀ name temp w self w',
      construct (init name temp) w = (Returns self, w') →
      lower (provider self) = provider self)
  ∧ (∀ name self w r self' w',
       switch_provider name self w = (r, self', w') →
       lower (provider self') = provider self'
       ∧ (lower name = "azure" →
          ModelInfo.model_info self' !! "provider"
          = Some (Some "Azure OpenAI")))
  ∧ keeps provider get_llm
  ∧ keeps provider get_memory
  ∧ (∀ retriever, keeps provider (create_qa_chain retriever))
  ∧ (∀ question, keeps provider (query question))
  ∧ keeps provider clear_memory
  ∧ keeps provider get_conversation_history.
Proof.
  split; [|split].
  - intros name temp w self w'. unfold construct, init, ret.
    intros E. simplify_eq. cbn. apply lower_idempotent.
  - intros name self w r self' w'.
    unfold switch_provider, bind, assign. intros E. simplify_eq. cbn.
    split; [apply lower_idempotent|].
    intros Hazure. unfold ModelInfo.model_info. cbn [provider].
    by rewrite Hazure.
  - assert (keeps provider get_llm) as Hllm.
    { unfold get_llm, _create_azure_llm, _create_ollama_llm. keeps_all. }
    assert (keeps provider get_memory) as Hmem.
    { unfold get_memory. keeps_all. }
    repeat split; try done.
    + intros retriever. unfold create_qa_chain.
      apply keeps_bind; [keeps_all|intros ?].
      apply keeps_bind; [done|intros ?].
      apply keeps_bind; [done|intros ?]. keeps_all.
    + intros question. unfold query. keeps_all.
    + unfold clear_memory. keeps_all.
    + unfold get_conversation_history. keeps_all.
Qed.
End HandlerCaches.

(** ** What a session keeps *)
Section SessionInvariants.
Context `{Config}.
Import RAGChatbot.

Lemma preserves_anything {S A} (m : M S A) : preserves (λ _, True) m.
Proof. by intros s w r s' w' E HP. Qed.

(** *** The fields of the components only ever go from [None] to a value *)
Lemma create_vector_store_store_held docs :
  preserves store_held (VectorStoreManager.create_vector_store docs).
Proof.
  unfold VectorStoreManager.create_vector_store, store_held. preserves_all.
Qed.

Lemma add_documents_store_held docs :
  preserves store_held (VectorStoreManager.add_documents docs).
Proof.
  unfold VectorStoreManager.add_documents.
  apply preserves_bind; [preserves_all|intros [vs|]].
  - preserves_all.
  - apply preserves_bind;
      [apply create_vector_store_store_held|intros ?; preserves_all].
Qed.

Lemma keeps_self_preserves {S A} (P : S → Prop) (m : M S A) :
  keeps id m → preserves P m.
Proof. intros Hm s w r s' w' E HP. apply Hm in E. unfold id in E. by subst. Qed.

Lemma get_llm_handler_equipped : preserves handler_equipped LLMHandler.get_llm.
Proof.
  unfold LLMHandler.get_llm, LLMHandler._create_azure_llm,
    LLMHandler._create_ollama_llm, handler_equipped.
  preserves_all.
Qed.

Lemma get_memory_handler_equipped :
  preserves handler_equipped LLMHandler.get_memory.
Proof. unfold LLMHandler.get_memory, handler_equipped. preserves_all. Qed.

Lemma create_qa_chain_handler_equipped retriever :
  preserves handler_equipped (LLMHandler.create_qa_chain retriever).
Proof.
  unfold LLMHandler.create_qa_chain.
  apply preserves_bind; [preserves_all|intros ?].
  apply preserves_bind; [apply get_llm_handler_equipped|intros ?].
  apply preserves_bind; [apply get_memory_handler_equipped|intros ?].
  unfold handler_equipped. preserves_all.
Qed.

Lemma in_document_processor_equipped {A} (m : M DocumentProcessor.t A) :
  preserves equipped (in_document_processor m).
Proof.
  apply (preserves_on _ (λ _, True)); [apply preserves_anything|done|].
  by intros s [] HP _.
Qed.

Lemma in_vector_store_manager_equipped {A} (m : M VectorStoreManager.t A) :
  preserves store_held m → preserves equipped (in_vector_store_manager m).
Proof.
  intros Hm. apply (preserves_on _ store_held); [done| |].
  - by intros t (? & ? & ? & ?).
  - intros s [] (? & ? & ? & ?) Hs. by repeat split.
Qed.

Lemma in_llm_handler_equipped {A} (m : M LLMHandler.t A) :
  preserves handler_equipped m → preserves equipped (in_llm_handler m).
Proof.
  intros Hm. apply (preserves_on _ handler_equipped); [done| |].
  - by intros t (? & ? & ? & ?).
  - intros s [] (? & ? & ? & ?) (? & ? & ?). by repeat split.
Qed.

Lemma assign_flag_equipped b : preserves equipped (assign (set_is_initialized b)).
Proof. apply preserves_assign. by intros []. Qed.

Lemma serve_preserves_equipped request self w reply self' w' :
  serve request self w = (reply, self', w') → equipped self → equipped self'.
Proof.
  assert (∀ A (wrap : A → Reply) (m : M t A),
            preserves equipped m →
            answered wrap m self w = (reply, self', w') →
            equipped self → equipped self') as Hanswered.
  { intros A wrap m Hm. unfold answered.
    destruct (m self w) as [[r s1] w1] eqn:Em. intros E. simplify_eq. eauto. }
  destruct request as [u|u|q|q k| | |]; cbn [serve]; apply Hanswered.
  - unfold process_pdfs.
    apply preserves_try_except; [|intros ?; apply preserves_ret].
    apply preserves_bind; [apply in_document_processor_equipped|intros ?].
    apply preserves_bind;
      [apply in_vector_store_manager_equipped,
         create_vector_store_store_held|intros ?].
    apply preserves_bind;
      [apply in_vector_store_manager_equipped, keeps_self_preserves,
         get_retriever_keeps_self|intros ?].
    apply preserves_bind;
      [apply in_llm_handler_equipped,
         create_qa_chain_handler_equipped|intros ?].
    apply preserves_bind; [apply assign_flag_equipped|intros ?].
    apply preserves_ret.
  - unfold add_pdfs.
    apply preserves_try_except; [|intros ?; apply preserves_ret].
    apply preserves_bind; [apply in_document_processor_equipped|intros ?].
    apply preserves_bind;
      [apply in_vector_store_manager_equipped,
         add_documents_store_held|intros ?].
    apply preserves_bind;
      [apply in_vector_store_manager_equipped, keeps_self_preserves,
         get_retriever_keeps_self|intros ?].
    apply preserves_bind;
      [apply in_llm_handler_equipped,
         create_qa_chain_handler_equipped|intros ?].
    apply preserves_ret.
  - intros s0 w0 r0 s1 w1 E HP. apply chat_keeps_self in E. by subst.
  - intros s0 w0 r0 s1 w1 E HP. apply search_documents_keeps_self in E.
    by subst.
  - intros s0 w0 r0 s1 w1 E HP. apply clear_chat_history_keeps_self in E.
    by subst.
  - intros s0 w0 r0 s1 w1 E HP.
    destruct (get_chat_history_reads s0 w0) as (history & Eh).
    rewrite Eh in E. by simplify_eq.
  - unfold reset.
    apply preserves_bind;
      [apply in_vector_store_manager_equipped, keeps_self_preserves,
         clear_vector_store_keeps_self|intros ?].
    apply preserves_bind;
      [apply in_llm_handler_equipped, keeps_self_preserves,
         clear_memory_keeps_self|intros ?].
    apply assign_flag_equipped.
Qed.

Lemma create_qa_chain_returns retriever self w chain self' w' :
  LLMHandler.create_qa_chain retriever self w = (Returns chain, self', w') →
  LLMHandler._qa_chain self' = Some chain
  ∧ is_Some (LLMHandler._llm self')
  ∧ is_Some (LLMHandler._memory self').
Proof.
  unfold LLMHandler.create_qa_chain, bind at 1, call.
  destruct (PromptTemplate _ _ w) as [[prompt|e] w1]; [|done].
  unfold bind at 1.
  destruct (LLMHandler.get_llm self w1) as [[[llm|e] s2] w2] eqn:Ellm; [|done].
  unfold bind at 1.
  destruct (LLMHandler.get_memory s2 w2) as [[[m|e] s3] w3] eqn:Emem; [|done].
  unfold bind, call, assign, ret.
  destruct (RetrievalQA_from_chain_type _ _ _ _ _ _ w3) as [[made|e] w4];
    intros E; simplify_eq.
  destruct (get_llm_returns _ _ _ _ _ Ellm) as (Hllm & _).
  destruct (get_memory_returns _ _ _ _ _ Emem) as (Hm & _ & Hkeep & _).
  cbn. rewrite Hm, Hkeep, Hllm. eauto.
Qed.

Lemma stages_complete_equipped u self w dp vsm llm w' b :
  stages_complete u self w dp vsm llm w' → equipped (mk dp vsm llm b).
Proof.
  intros (chunks & w1 & store & vsm1 & w2 & retriever & w3 & chain
          & _ & Hstore & Hretriever & Hchain).
  apply get_retriever_keeps_self in Hretriever. unfold id in Hretriever.
  subst vsm.
  destruct (create_qa_chain_returns _ _ _ _ _ _ Hchain) as (Hqa & Hllm & Hmem).
  rewrite create_vector_store_unfold in Hstore.
  destruct (delete_collection _ _ w1) as [r0 wa].
  destruct (Chroma_from_documents _ _ _ _ wa) as [[vs|e] wb]; simplify_eq.
  unfold equipped. cbn. rewrite Hqa. eauto.
Qed.

Lemma serve_ready_equipped request self w reply self' w' :
  serve request self w = (reply, self', w') →
  (_is_initialized self = true → equipped self) →
  _is_initialized self' = true → equipped self'.
Proof.
  intros Eserve Hbefore Hready.
  destruct (_is_initialized self) eqn:Hflag.
  - eapply serve_preserves_equipped; eauto.
  - pose proof (serve_flag _ _ _ _ _ _ Eserve) as Hafter.
    rewrite Hready, Hflag in Hafter.
    destruct request as [u|u|q|q k| | |]; try (destruct reply; done).
    destruct reply as [[|]| | | | |]; try done.
    cbn [serve] in Eserve. unfold answered in Eserve.
    destruct (process_pdfs_cases u self w)
      as [(dp & vsm & llm & w2 & Hall & E)|(_ & s2 & w2 & E & _)];
      rewrite E in Eserve; simplify_eq.
    by eapply stages_complete_equipped.
Qed.

Lemma session_ready_equipped requests :
  ∀ self w log self' w',
    session requests self w = (log, self', w') →
    (_is_initialized self = true → equipped self) →
    _is_initialized self' = true → equipped self'.
Proof.
  induction requests as [|request rest IH]; intros self w log self' w'.
  - cbn. intros E. simplify_eq. eauto.
  - cbn [session].
    destruct (serve request self w) as [[reply self1] w1] eqn:Eserve.
    destruct (session rest self1 w1) as [[log1 self2] w2] eqn:Erest.
    intros E Hbefore. simplify_eq.
    eapply IH; eauto. by eapply serve_ready_equipped.
Qed.

Lemma query_with_chain question self w qa :
  LLMHandler._qa_chain self = Some qa →
  LLMHandler.query question self w
  = let '(r, w') := chain_call qa question w in (r, self, w').
Proof.
  intros Hqa. unfold LLMHandler.query, bind at 1, get. rewrite Hqa.
  rewrite reraise. unfold bind, call, ret.
  by destruct (chain_call qa question w) as [[response|e] w'].
Qed.

(** X5: on a chatbot as constructed and then used through any sequence of
    calls to its methods, readiness implies that the manager holds a
    store and the handler a chain, a model and a memory.  [chat] on a
    ready chatbot is therefore one call to that chain: it returns the
    chain's answer as it is, or the error dictionary for what the chain
    raised, and never the error of a missing chain. *)
Theorem ready_chatbot_is_equipped w0 self0 w1 requests log self w :
  construct init w0 = (Returns self0, w1) →
  session requests self0 w1 = (log, self, w) →
  is_ready self = true →
  equipped self
  ∧ ∃ qa,
      LLMHandler._qa_chain (llm_handler self) = Some qa
      ∧ ∀ question,
          chat question self w
          = match chain_call qa question w with
            | (Returns response, w') => (Returns response, self, w')
            | (Raises e, w') =>
                (Returns
                   (<["result" :=
                       VStr ("Sorry, I encountered an error: " ++ exc_str e)]>
                      (<["source_documents" := VDocs []]> ∅)),
                 self, w')
            end.
Proof.
  intros Hinit Hsession Hready.
  assert (equipped self) as Heq.
  { eapply session_ready_equipped; eauto.
    rewrite (init_not_ready _ _ _ Hinit). done. }
  split; [done|].
  destruct Heq as (_ & [qa Hqa] & _). exists qa. split; [done|].
  intros question. unfold chat, chat_via. unfold bind at 1. unfold get.
  unfold is_ready in Hready. rewrite Hready. cbn [negb].
  unfold try_except, bind, in_llm_handler, on, ret.
  rewrite (query_with_chain _ _ _ _ Hqa).
  destruct (chain_call qa question w) as [[response|e] w'];
    by rewrite set_llm_handler_same.
Qed.

(** *** The memory object *)
Lemma get_memory_keeps_memory m :
  preserves (λ h, LLMHandler._memory h = Some m) LLMHandler.get_memory.
Proof.
  intros s w r s' w' E HP. unfold LLMHandler.get_memory, bind, get in E.
  rewrite HP in E. unfold ret in E. by simplify_eq.
Qed.

Lemma create_qa_chain_keeps_memory m retriever :
  preserves (λ h, LLMHandler._memory h = Some m)
    (LLMHandler.create_qa_chain retriever).
Proof.
  unfold LLMHandler.create_qa_chain.
  apply preserves_bind; [preserves_all|intros ?].
  apply preserves_bind.
  { unfold LLMHandler.get_llm, LLMHandler._create_azure_llm,
      LLMHandler._create_ollama_llm. preserves_all. }
  intros ?. apply preserves_bind; [apply get_memory_keeps_memory|intros ?].
  preserves_all.
Qed.

Lemma serve_keeps_memory m request self w reply self' w' :
  serve request self w = (reply, self', w') →
  LLMHandler._memory (llm_handler self) = Some m →
  LLMHandler._memory (llm_handler self') = Some m.
Proof.
  set (P := λ t : t, LLMHandler._memory (llm_handler t) = Some m).
  assert (∀ A (wrap : A → Reply) (n : M t A),
            preserves P n →
            answered wrap n self w = (reply, self', w') → P self → P self')
    as Hanswered.
  { intros A wrap n Hn. unfold answered.
    destruct (n self w) as [[r s1] w1] eqn:En. intros E. simplify_eq. eauto. }
  assert (∀ A (n : M DocumentProcessor.t A),
            preserves P (in_document_processor n)) as Hdp.
  { intros A n. apply (preserves_on _ (λ _, True));
      [apply preserves_anything|done|by intros s []]. }
  assert (∀ A (n : M VectorStoreManager.t A),
            preserves P (in_vector_store_manager n)) as Hvsm.
  { intros A n. apply (preserves_on _ (λ _, True));
      [apply preserves_anything|done|by intros s []]. }
  assert (∀ A (n : M LLMHandler.t A),
            preserves (λ h, LLMHandler._memory h = Some m) n →
            preserves P (in_llm_handler n)) as Hllm.
  { intros A n Hn. apply (preserves_on _ (λ h, LLMHandler._memory h = Some m));
      [done|done|by intros s []]. }
  assert (∀ b, preserves P (assign (set_is_initialized b))) as Hflag.
  { intros b. apply preserves_assign. by intros []. }
  destruct request as [u|u|q|q k| | |]; cbn [serve]; apply Hanswered.
  - unfold process_pdfs.
    apply preserves_try_except; [|intros ?; apply preserves_ret].
    repeat (apply preserves_bind; [first [apply Hdp | apply Hvsm
      | apply Hllm, create_qa_chain_keeps_memory | apply Hflag]|intros ?]).
    apply preserves_ret.
  - unfold add_pdfs.
    apply preserves_try_except; [|intros ?; apply preserves_ret].
    repeat (apply preserves_bind; [first [apply Hdp | apply Hvsm
      | apply Hllm, create_qa_chain_keeps_memory]|intros ?]).
    apply preserves_ret.
  - intros s0 w0 r0 s1 w1 E HP. apply chat_keeps_self in E. by subst.
  - apply Hvsm.
  - apply Hllm, keeps_self_preserves, clear_memory_keeps_self.
  - apply Hllm, keeps_self_preserves, get_conversation_history_keeps_self.
  - unfold reset.
    apply preserves_bind; [apply Hvsm|intros ?].
    apply preserves_bind;
      [apply Hllm, keeps_self_preserves, clear_memory_keeps_self|intros ?].
    apply Hflag.
Qed.

(** X6: the memory object of the handler, once created, is never
    replaced: after any sequence of calls to the chatbot's methods,
    [process_pdfs], [add_pdfs] and [reset] included, [_memory] holds the
    same object, and so does it after [switch_provider] on the handler.
    A chain made later is made with this memory. *)
Theorem memory_object_is_kept m requests self w log self' w' :
  session requests self w = (log, self', w') →
  LLMHandler._memory (llm_handler self) = Some m →
  LLMHandler._memory (llm_handler self') = Some m
  ∧ (∀ name r llm w2,
       LLMHandler.switch_provider name (llm_handler self') w' = (r, llm, w2) →
       LLMHandler._memory llm = Some m)
  ∧ (∀ retriever chain llm w2,
       LLMHandler.create_qa_chain retriever (llm_handler self') w'
       = (Returns chain, llm, w2) →
       ∃ model prompt w1,
         RetrievalQA_from_chain_type model "stuff" retriever m true prompt w1
         = (Returns chain, w2)).
Proof.
  intros Hsession Hm.
  assert (LLMHandler._memory (llm_handler self') = Some m) as Hafter.
  { revert self w log self' w' Hsession Hm.
    induction requests as [|request rest IH]; intros self w log self' w'.
    - cbn. intros E. by simplify_eq.
    - cbn [session].
      destruct (serve request self w) as [[reply self1] w1] eqn:Eserve.
      destruct (session rest self1 w1) as [[log1 self2] w2] eqn:Erest.
      intros E Hm. simplify_eq.
      eapply IH; eauto. by eapply serve_keeps_memory. }
  split; [done|]. split.
  - intros name r llm w2. unfold LLMHandler.switch_provider, bind, assign.
    intros E. by simplify_eq.
  - intros retriever chain llm w2.
    unfold LLMHandler.create_qa_chain, bind at 1, call.
    destruct (PromptTemplate _ _ w') as [[prompt|e] wa]; [|done].
    unfold bind at 1.
    destruct (LLMHandler.get_llm (llm_handler self') wa)
      as [[[model|e] s2] wb] eqn:Ellm; [|done].
    unfold bind at 1.
    destruct (LLMHandler.get_memory s2 wb) as [[[m'|e] s3] wc] eqn:Emem; [|done].
    destruct (get_llm_returns _ _ _ _ _ Ellm) as (_ & Hkeep & _).
    destruct (get_memory_returns _ _ _ _ _ Emem) as (_ & Hheld & _).
    rewrite Hafter in Hkeep.
    destruct (Hheld m Hkeep) as (-> & -> & ->).
    unfold bind, call, assign, ret.
    destruct (RetrievalQA_from_chain_type _ _ _ _ _ _ wb) as [[made|e] wd] eqn:Emake;
      intros E; simplify_eq.
    eauto.
Qed.

(** *** Before any upload *)
Lemma init_no_store w0 self0 w1 :
  construct init w0 = (Returns self0, w1) →
  VectorStoreManager._vector_store (vector_store_manager self0) = None.
Proof.
  unfold construct, init, DocumentProcessor.init_default,
    DocumentProcessor.init, VectorStoreManager.init_default,
    VectorStoreManager.init, LLMHandler.init_default, LLMHandler.init,
    bind, call, ret.
  destruct (RecursiveCharacterTextSplitter _ _ _ w0) as [[sp|e] wa]; [|done].
  destruct (OllamaEmbeddings _ _ wa) as [[emb|e] wb]; [|done].
  destruct (PersistentClient _ wb) as [[client|e] wc]; [|done].
  intros E. by simplify_eq.
Qed.

Lemma serve_without_upload request self w reply self' w' :
  uploads request = false →
  serve request self w = (reply, self', w') →
  vector_store_manager self' = vector_store_manager self.
Proof.
  intros Hno. destruct request as [u|u|q|q k| | |]; try done;
    cbn [serve]; unfold answered.
  - destruct (chat q self w) as [[r s1] w1] eqn:E; intros E'; simplify_eq.
    apply chat_keeps_self in E. by subst.
  - destruct (search_documents q k self w) as [[r s1] w1] eqn:E;
      intros E'; simplify_eq.
    apply search_documents_keeps_self in E. by subst.
  - destruct (clear_chat_history self w) as [[r s1] w1] eqn:E;
      intros E'; simplify_eq.
    apply clear_chat_history_keeps_self in E. by subst.
  - destruct (get_chat_history_reads self w) as (history & ->).
    intros E'. by simplify_eq.
  - destruct (reset self w) as [[r s1] w1] eqn:E; intros E'; simplify_eq.
    revert E. unfold reset, bind, in_vector_store_manager, in_llm_handler,
      on, assign.
    destruct (clear_vector_store_swallows (vector_store_manager self) w)
      as (wa & ->). fields.
    destruct (LLMHandler.clear_memory (llm_handler self) wa)
      as [[[[]|e] llm] wb]; intros E; by simplify_eq.
Qed.

(** X14: on a chatbot as constructed and then used without any
    [process_pdfs] or [add_pdfs], the manager holds no store, and
    [search_documents] returns the empty list for every query and [k],
    without a call to the database; a [reset] does not change this. *)
Theorem search_before_upload w0 self0 w1 requests log self w :
  construct init w0 = (Returns self0, w1) →
  session requests self0 w1 = (log, self, w) →
  forallb (λ request, negb (uploads request)) requests = true →
  VectorStoreManager._vector_store (vector_store_manager self) = None
  ∧ ∀ query k, search_documents query k self w = (Returns [], self, w).
Proof.
  intros Hinit Hsession Hnone.
  assert (vector_store_manager self = vector_store_manager self0) as Hsame.
  { clear Hinit. revert self0 w1 log self w Hsession Hnone.
    induction requests as [|request rest IH]; intros self0 w1 log self w.
    - cbn. intros E. by simplify_eq.
    - cbn [session forallb].
      destruct (serve request self0 w1) as [[reply self1] wa] eqn:Eserve.
      destruct (session rest self1 wa) as [[log1 self2] wb] eqn:Erest.
      intros E Hnone. simplify_eq.
      apply andb_prop in Hnone as [Hhead Htail].
      rewrite (IH _ _ _ _ _ Erest Htail).
      eapply serve_without_upload; [|done].
      by destruct (uploads request). }
  assert (VectorStoreManager._vector_store (vector_store_manager self) = None)
    as Hstore.
  { rewrite Hsame. by eapply init_no_store. }
  split; [done|]. intros query k.
  unfold search_documents, in_vector_store_manager, on,
    VectorStoreManager.search, bind, get, ret.
  rewrite Hstore. by rewrite set_vector_store_manager_same.
Qed.
End SessionInvariants.

(** ** Failing and loading stores *)
Section StoreFacts.
Context `{Config} {more : MoreLibraries}.
Import VectorStoreManager VectorStoreLoading.

(** X12: when [create_vector_store] raises, it is [Chroma.from_documents]
    that raised, after the [delete_collection] attempt: the manager is
    left as it was, with the store object it held, and when
    [delete_collection] had returned, the collection of the configured
    name was already gone before the failing call. *)
Theorem create_vector_store_failure {chroma_laws : ChromaLaws}
    documents self w e self' w' :
  create_vector_store documents self w = (Raises e, self', w') →
  self' = self
  ∧ ∃ r w1,
      delete_collection (chroma_client self) (collection_name self) w = (r, w1)
      ∧ Chroma_from_documents documents (embeddings self)
          (chroma_client self) (collection_name self) w1 = (Raises e, w')
      ∧ (r = Returns tt →
         collection_docs (chroma_client self) (collection_name self) w1
         = None).
Proof.
  rewrite create_vector_store_unfold.
  destruct (delete_collection _ _ w) as [r w1] eqn:Edel.
  destruct (Chroma_from_documents _ _ _ _ w1) as [[vs|e'] w2] eqn:Enew;
    intros E; simplify_eq.
  split; [done|]. exists r, w1.
  split; [done|]. split; [done|].
  intros ->. by eapply delete_collection_returns.
Qed.

Lemma load_vector_store_cases self w :
  (∃ w', load_vector_store self w = (Returns None, self, w'))
  ∨ (∃ names w1 store w',
        list_collections (chroma_client self) w = (Returns names, w1)
        ∧ existsb (λ col, String.eqb col (collection_name self)) names = true
        ∧ Chroma_open (chroma_client self) (collection_name self)
            (embeddings self) w1 = (Returns store, w')
        ∧ load_vector_store self w
          = (Returns (Some store), set_vector_store (Some store) self, w')).
Proof.
  unfold load_vector_store, try_except, bind, get, call, assign, ret. cbn.
  destruct (list_collections _ w) as [[names|e] w1] eqn:Elist; [|eauto].
  destruct (existsb _ names) eqn:Hfound; cbn; [|eauto].
  destruct (Chroma_open _ _ _ w1) as [[store|e] w2] eqn:Eopen; [|eauto].
  right. exists names, w1, store, w2. done.
Qed.

(** X13: [load_vector_store] and [get_vector_store] never raise.
    [load_vector_store] returns a store only when the configured name is
    among the collections the client lists and the store could be opened,
    and then keeps it in [_vector_store]; otherwise it returns [None] and
    leaves the manager as it was.  [get_vector_store] returns what
    [_vector_store] holds afterwards; with a store held it returns that
    store and calls no library. *)
Theorem vector_store_loading self w :
  ((∃ w', load_vector_store self w = (Returns None, self, w'))
   ∨ (∃ names w1 store w',
         list_collections (chroma_client self) w = (Returns names, w1)
         ∧ collection_name self ∈ names
         ∧ Chroma_open (chroma_client self) (collection_name self)
             (embeddings self) w1 = (Returns store, w')
         ∧ load_vector_store self w
           = (Returns (Some store), set_vector_store (Some store) self, w')))
  ∧ (∃ store self' w',
        get_vector_store self w = (Returns store, self', w')
        ∧ _vector_store self' = store
        ∧ set_vector_store (_vector_store self) self' = self)
  ∧ (∀ held,
       _vector_store self = Some held →
       get_vector_store self w = (Returns (Some held), self, w)).
Proof.
  split; [|split].
  - destruct (load_vector_store_cases self w)
      as [?|(names & w1 & store & w' & Hlist & Hfound & Hopen & Hload)];
      [by left|right].
    exists names, w1, store, w'. repeat split; try done.
    apply existsb_exists in Hfound as (col & Hin & Heq).
    apply String.eqb_eq in Heq. subst col. by apply list_elem_of_In.
  - unfold get_vector_store, bind at 1, get.
    destruct (_vector_store self) as [held|] eqn:Hheld.
    + unfold bind, get, ret. exists (Some held), self, w.
      split; [by rewrite Hheld|]. split; [done|]. destruct self; cbn in *; by subst.
    + unfold bind at 1. unfold bind at 1.
      destruct (load_vector_store_cases self w)
        as [(w' & ->)|(names & w1 & store & w' & _ & _ & _ & ->)];
        unfold assign, bind, get, ret; cbn.
      * exists None, (set_vector_store None self), w'.
        split; [done|]. split; [done|]. destruct self; cbn in *; by subst.
      * exists (Some store), (set_vector_store (Some store) self), w'.
        split; [done|]. split; [done|]. destruct self; cbn in *; by subst.
  - intros held Hheld.
    unfold get_vector_store, bind, get, ret. by rewrite !Hheld.
Qed.
End StoreFacts.

(** ** [run_app.py] *)
Section RunAppFacts.
Context `{Libraries} {more : MoreLibraries}.
Import run_app.

Lemma check_ollama_returns {S} (s : S) w :
  ∃ running w', check_ollama s w = (Returns running, s, w').
Proof.
  unfold check_ollama, try_except, bind, call, ret.
  destruct (requests_get _ _ w) as [[status|e] w']; eauto.
Qed.

Lemma validate_azure_config_true args :
  validate_azure_config args = true ↔ api_key args ≠ "" ∧ endpoint args ≠ "".
Proof.
  unfold validate_azure_config, truthy_str.
  destruct (String.eqb_spec (api_key args) "") as [->|Hkey];
    destruct (String.eqb_spec (endpoint args) "") as [->|Hend]; cbn;
    intuition congruence.
Qed.

(** X15: [set_environment] always sets LLM_PROVIDER and LLM_TEMPERATURE.
    For the provider "ollama" it sets the two OLLAMA variables and leaves
    the four AZURE_OPENAI variables as they were; for any other provider
    it sets the four AZURE_OPENAI variables and leaves the OLLAMA ones.
    Every other variable is left as it was, and setting twice is setting
    once. *)
Theorem set_environment_frame args environ :
  let environ' := set_environment args environ in
  environ' !! "LLM_PROVIDER" = Some (provider args)
  ∧ environ' !! "LLM_TEMPERATURE" = Some (str_of_float (temperature args))
  ∧ (provider args = "ollama" →
     environ' !! "OLLAMA_MODEL" = Some (model args)
     ∧ environ' !! "OLLAMA_BASE_URL" = Some (ollama_url args)
     ∧ ∀ name,
         name ∈ ["AZURE_OPENAI_API_KEY"; "AZURE_OPENAI_ENDPOINT";
                 "AZURE_OPENAI_DEPLOYMENT"; "AZURE_OPENAI_API_VERSION"] →
         environ' !! name = environ !! name)
  ∧ (provider args ≠ "ollama" →
     environ' !! "AZURE_OPENAI_API_KEY" = Some (api_key args)
     ∧ environ' !! "AZURE_OPENAI_ENDPOINT" = Some (endpoint args)
     ∧ environ' !! "AZURE_OPENAI_DEPLOYMENT" = Some (deployment args)
     ∧ environ' !! "AZURE_OPENAI_API_VERSION" = Some (api_version args)
     ∧ ∀ name,
         name ∈ ["OLLAMA_MODEL"; "OLLAMA_BASE_URL"] →
         environ' !! name = environ !! name)
  ∧ (∀ name,
       name ∉ ["LLM_PROVIDER"; "LLM_TEMPERATURE"; "OLLAMA_MODEL";
               "OLLAMA_BASE_URL"; "AZURE_OPENAI_API_KEY";
               "AZURE_OPENAI_ENDPOINT"; "AZURE_OPENAI_DEPLOYMENT";
               "AZURE_OPENAI_API_VERSION"] →
       environ' !! name = environ !! name)
  ∧ set_environment args environ' = environ'.
Proof.
  cbn zeta. unfold set_environment.
  destruct (String.eqb_spec (provider args) "ollama") as [Hollama|Hother].
  - repeat split; try done; try (by simplify_map_eq).
    + intros name Hname. rewrite !elem_of_cons, elem_of_nil in Hname.
      destruct Hname as [->|[->|[->|[->|[]]]]]; by simplify_map_eq.
    + intros name Hname. rewrite !not_elem_of_cons in Hname.
      destruct Hname as (?&?&?&?&?&?&?&?&?). by simplify_map_eq.
    + apply map_eq. intros name.
      destruct (decide (name = "OLLAMA_BASE_URL")) as [->|];
        [by simplify_map_eq|].
      destruct (decide (name = "OLLAMA_MODEL")) as [->|];
        [by simplify_map_eq|].
      destruct (decide (name = "LLM_TEMPERATURE")) as [->|];
        [by simplify_map_eq|].
      destruct (decide (name = "LLM_PROVIDER")) as [->|];
        by simplify_map_eq.
  - repeat split; try done; try (by simplify_map_eq).
    + intros name Hname. rewrite !elem_of_cons, elem_of_nil in Hname.
      destruct Hname as [->|[->|[]]]; by simplify_map_eq.
    + intros name Hname. rewrite !not_elem_of_cons in Hname.
      destruct Hname as (?&?&?&?&?&?&?&?&?). by simplify_map_eq.
    + apply map_eq. intros name.
      destruct (decide (name = "AZURE_OPENAI_API_VERSION")) as [->|];
        [by simplify_map_eq|].
      destruct (decide (name = "AZURE_OPENAI_DEPLOYMENT")) as [->|];
        [by simplify_map_eq|].
      destruct (decide (name = "AZURE_OPENAI_ENDPOINT")) as [->|];
        [by simplify_map_eq|].
      destruct (decide (name = "AZURE_OPENAI_API_KEY")) as [->|];
        [by simplify_map_eq|].
      destruct (decide (name = "LLM_TEMPERATURE")) as [->|];
        [by simplify_map_eq|].
      destruct (decide (name = "LLM_PROVIDER")) as [->|];
        by simplify_map_eq.
Qed.

(** X16: with the provider "azure" and an empty API key or endpoint,
    [main] exits with status 1 before anything else: the environment and
    the world are left as they were, whatever [subprocess.run] would do. *)
Theorem main_rejects_azure_without_credentials args environ w :
  provider args = "azure" →
  api_key args = "" ∨ endpoint args = "" →
  main args environ w = (Raises (SystemExit 1), environ, w)
  ∧ ∀ run, main_via run args environ w = (Raises (SystemExit 1), environ, w).
Proof.
  intros Hazure Hmissing.
  assert (validate_azure_config args = false) as Hinvalid.
  { destruct (validate_azure_config args) eqn:Hvalid; [|done].
    apply validate_azure_config_true in Hvalid. intuition congruence. }
  assert (∀ run, main_via run args environ w
                 = (Raises (SystemExit 1), environ, w)) as Hmain.
  { intros run. unfold main_via, bind at 1. rewrite Hazure, Hinvalid. done. }
  split; [apply Hmain|done].
Qed.

Lemma ollama_selected_and_down_returns {S} args (s : S) w :
  ∃ down w', ollama_selected_and_down args s w = (Returns down, s, w').
Proof.
  unfold ollama_selected_and_down.
  destruct (String.eqb (provider args) "ollama"); [|unfold ret; eauto].
  unfold bind. destruct (check_ollama_returns s w) as (running & w' & ->).
  unfold ret. eauto.
Qed.

Lemma print_config_returns {S} args (s : S) w :
  ∃ w', print_config args s w = (Returns tt, s, w').
Proof.
  unfold print_config.
  destruct (String.eqb (provider args) "ollama"); [|unfold ret; eauto].
  unfold bind. destruct (check_ollama_returns s w) as (running & w' & ->).
  unfold ret. eauto.
Qed.

(** X17: with [--check], [main] always ends in [sys.exit], with status 0
    or 1, and never reaches [subprocess.run]: the outcome is the same
    whatever [subprocess.run] would do.  Once past the validation of the
    cloud settings it has set the environment. *)
Theorem main_check_never_launches args environ w :
  check args = true →
  ∃ code environ' w',
    main args environ w = (Raises (SystemExit code), environ', w')
    ∧ (code = 0 ∨ code = 1)
    ∧ (∀ run, main_via run args environ w
              = (Raises (SystemExit code), environ', w'))
    ∧ (environ' = environ ∨ environ' = set_environment args environ)
    ∧ (code = 0 → environ' = set_environment args environ).
Proof.
  intros Hcheck.
  assert (∃ code environ' w',
            (∀ run, main_via run args environ w
                    = (Raises (SystemExit code), environ', w'))
            ∧ (code = 0 ∨ code = 1)
            ∧ (environ' = environ ∨ environ' = set_environment args environ)
            ∧ (code = 0 → environ' = set_environment args environ))
    as (code & environ' & w' & Hmain & Hcode & Henv & Hzero).
  { unfold main_via. rewrite Hcheck.
    destruct (String.eqb (provider args) "azure" &&
              negb (validate_azure_config args))%bool eqn:Hreject.
    - exists 1, environ, w. split; [|intuition congruence].
      intros run. unfold bind at 1.
      apply andb_prop in Hreject as [-> Hinvalid].
      by rewrite Hinvalid.
    - destruct (print_config_returns args (set_environment args environ) w)
        as (w1 & Hprint).
      destruct (ollama_selected_and_down_returns args
                  (set_environment args environ) w1) as (down & w2 & Hdown).
      exists (if down then 1 else 0), (set_environment args environ), w2.
      split; [|destruct down; intuition congruence].
      intros run. unfold bind at 1.
      assert ((if String.eqb (provider args) "azure"
               then if negb (validate_azure_config args)
                    then sys_exit (S := gmap string string) (A := unit) 1
                    else ret tt
               else ret tt) environ w = (Returns tt, environ, w)) as ->.
      { destruct (String.eqb (provider args) "azure"); [|done].
        cbn in Hreject. by rewrite Hreject. }
      unfold bind at 1, assign. unfold bind at 1. rewrite Hprint.
      unfold bind at 1. unfold bind at 1. unfold bind at 1. rewrite Hdown.
      by destruct down. }
  exists code, environ', w'. split; [apply Hmain|]. done.
Qed.

(** X18: when [main] returns, it has launched Streamlit: [--check] was not
    given, the environment is the one [set_environment] makes, the last
    statement was [subprocess.run] on the Streamlit command for the given
    port, the cloud settings were complete if the provider is "azure",
    and the local model server had answered the last check with status
    200 if the provider is "ollama". *)
Theorem main_launches_after_checks args environ w environ' w' :
  main args environ w = (Returns tt, environ', w') →
  check args = false
  ∧ environ' = set_environment args environ
  ∧ (provider args = "azure" → api_key args ≠ "" ∧ endpoint args ≠ "")
  ∧ ∃ w1 w2,
      subprocess_run (streamlit_command args) w2 = (Returns tt, w')
      ∧ (provider args = "ollama" →
         requests_get "http://localhost:11434/api/tags" 5 w1
         = (Returns 200, w2)).
Proof.
  unfold main, main_via. unfold bind at 1.
  destruct (String.eqb (provider args) "azure") eqn:Hazure.
  - destruct (validate_azure_config args) eqn:Hvalid; [|done]. cbn [negb].
    unfold ret at 1. unfold bind at 1, assign. unfold bind at 1.
    assert (String.eqb (provider args) "ollama" = false) as Hollama.
    { apply String.eqb_eq in Hazure. by rewrite Hazure. }
    unfold print_config, ollama_selected_and_down. rewrite Hollama.
    unfold ret at 1. unfold bind at 1.
    destruct (check args); [done|]. unfold ret at 1.
    unfold bind, call, ret.
    destruct (subprocess_run _ w) as [[[]|e] w2] eqn:Erun;
      intros E; simplify_eq.
    split; [done|]. split; [done|].
    split; [intros _; by apply validate_azure_config_true|].
    exists w, w. split; [done|].
    intros Hprov. rewrite Hprov in Hollama. done.
  - unfold ret at 1. unfold bind at 1, assign. unfold bind at 1.
    destruct (print_config_returns args (set_environment args environ) w)
      as (w1 & ->).
    unfold bind at 1.
    destruct (check args).
    { unfold bind at 1.
      destruct (ollama_selected_and_down_returns args
                  (set_environment args environ) w1) as (down & w2 & ->).
      by destruct down. }
    unfold ret at 1. unfold bind at 1.
    unfold ollama_selected_and_down.
    destruct (String.eqb (provider args) "ollama") eqn:Hollama.
    + unfold bind at 1, check_ollama, try_except, bind at 1, call.
      destruct (requests_get _ _ w1) as [[status|e] w2] eqn:Eget;
        unfold ret; [|done].
      destruct (Z.eqb_spec status 200) as [->|Hstatus]; [|done]. cbn [negb].
      unfold bind, call.
      destruct (subprocess_run _ w2) as [[[]|e] w3] eqn:Erun;
        intros E; simplify_eq.
      split; [done|]. split; [done|].
      split; [intros Hprov; apply String.eqb_neq in Hazure; done|].
      exists w1, w2. done.
    + unfold ret at 1. unfold bind, call, ret.
      destruct (subprocess_run _ w1) as [[[]|e] w3] eqn:Erun;
        intros E; simplify_eq.
      split; [done|]. split; [done|].
      split; [intros Hprov; apply String.eqb_neq in Hazure; done|].
      exists w1, w1. split; [done|].
      intros Hprov. apply String.eqb_neq in Hollama. done.
Qed.
End RunAppFacts.

(** ** The further properties on the sample inputs *)
Section MoreSamples.
Import Ref RefMore.

Lemma reset_outcome_witness :
  RAGChatbot.reset after_question.1.2 after_question.2
  = (Returns tt, after_reset.1.2, after_reset.2)
  ∧ after_reset.1.2 = RAGChatbot.set_is_initialized false after_question.1.2
  ∧ RAGChatbot.get_chat_history after_reset.1.2 after_reset.2
    = (Returns [], after_reset.1.2, after_reset.2).
Proof.
  assert (after_reset.1.1 = Returns tt) as Hreturns by reflexivity.
  pose proof (triple_eta after_reset) as Hreset.
  rewrite Hreturns in Hreset. unfold after_reset at 1 in Hreset.
  split; [exact Hreset|].
  exact (reset_outcome (memory_laws := ref_memory_laws) _ _ _ _ _ Hreset).
Defined.

Lemma ready_chatbot_is_equipped_witness :
  construct RAGChatbot.init empty_world = (Returns bot, empty_world)
  ∧ RAGChatbot.is_ready after_question.1.2 = true
  ∧ equipped after_question.1.2.
Proof.
  assert (construct RAGChatbot.init empty_world = (Returns bot, empty_world))
    as Hinit by reflexivity.
  assert (RAGChatbot.is_ready after_question.1.2 = true)
    as Hready by reflexivity.
  pose proof (triple_eta after_question) as Hsession.
  unfold after_question at 1 in Hsession.
  split; [exact Hinit|]. split; [exact Hready|].
  exact (proj1 (ready_chatbot_is_equipped _ _ _ _ _ _ _
                  Hinit Hsession Hready)).
Defined.

Lemma memory_object_is_kept_witness :
  LLMHandler._memory (RAGChatbot.llm_handler after_question.1.2) = Some 0%nat
  ∧ LLMHandler._memory (RAGChatbot.llm_handler after_more.1.2) = Some 0%nat.
Proof.
  assert (LLMHandler._memory (RAGChatbot.llm_handler after_question.1.2)
          = Some 0%nat) as Hmemory by reflexivity.
  pose proof (triple_eta after_more) as Hsession.
  unfold after_more at 1 in Hsession.
  split; [exact Hmemory|].
  exact (proj1 (memory_object_is_kept _ _ _ _ _ _ _ Hsession Hmemory)).
Defined.

Lemma azure_without_credentials_witness :
  LLMHandler.provider (RAGChatbot.llm_handler switched) = "azure"
  ∧ LLMHandler._llm (RAGChatbot.llm_handler switched) = None
  ∧ (truthy_str AZURE_OPENAI_API_KEY && truthy_str AZURE_OPENAI_ENDPOINT)%bool
    = false
  ∧ ∃ self' w',
      RAGChatbot.process_pdfs (FileList [notes]) switched after_question.2
      = (Returns false, self', w').
Proof.
  split; [reflexivity|]. split; [reflexivity|]. split; [reflexivity|].
  exact (proj1 (proj2
    (azure_without_credentials (FileList [notes]) switched after_question.2
       eq_refl eq_refl eq_refl))).
Defined.

Lemma create_vector_store_failure_witness :
  VectorStoreManager.create_vector_store [page "new"] holding old_world_down
  = (Raises (error "ConnectionError" "embedding server unreachable"),
     holding,
     set_db {[ "pdf_documents" := [] ]} old_world_down)
  ∧ ∃ r w1,
      delete_collection "/app/vectorDB" "pdf_documents" old_world_down = (r, w1)
      ∧ Chroma_from_documents [page "new"]
          ("llama3.2:1b", "http://localhost:11434")
          "/app/vectorDB" "pdf_documents" w1
        = (Raises (error "ConnectionError" "embedding server unreachable"),
           set_db {[ "pdf_documents" := [] ]} old_world_down)
      ∧ (r = Returns tt →
         collection_docs "/app/vectorDB" "pdf_documents" w1 = None).
Proof.
  assert (VectorStoreManager.create_vector_store [page "new"] holding
            old_world_down
          = (Raises (error "ConnectionError" "embedding server unreachable"),
             holding,
             set_db {[ "pdf_documents" := [] ]} old_world_down))
    as Hcall by reflexivity.
  split; [exact Hcall|].
  exact (proj2 (create_vector_store_failure (chroma_laws := ref_chroma_laws)
                  _ _ _ _ _ _ Hcall)).
Defined.

Lemma search_before_upload_witness :
  forallb (λ request, negb (uploads request)) idle_requests = true
  ∧ VectorStoreManager._vector_store
      (RAGChatbot.vector_store_manager after_idle.1.2) = None
  ∧ RAGChatbot.search_documents "report" 4 after_idle.1.2 after_idle.2
    = (Returns [], after_idle.1.2, after_idle.2).
Proof.
  assert (construct RAGChatbot.init empty_world = (Returns bot, empty_world))
    as Hinit by reflexivity.
  assert (forallb (λ request, negb (uploads request)) idle_requests = true)
    as Hidle by reflexivity.
  pose proof (triple_eta after_idle) as Hsession.
  unfold after_idle at 1 in Hsession.
  pose proof (search_before_upload _ _ _ _ _ _ _ Hinit Hsession Hidle)
    as [Hnone Hsearch].
  split; [exact Hidle|]. split; [exact Hnone|]. exact (Hsearch "report" 4).
Defined.

Lemma main_rejects_azure_without_credentials_witness :
  run_app.provider azure_args = "azure"
  ∧ (run_app.api_key azure_args = "" ∨ run_app.endpoint azure_args = "")
  ∧ run_app.main azure_args ∅ empty_world
    = (Raises (run_app.SystemExit 1), ∅, empty_world).
Proof.
  split; [reflexivity|]. split; [left; reflexivity|].
  exact (proj1 (main_rejects_azure_without_credentials azure_args ∅
                  empty_world eq_refl (or_introl eq_refl))).
Defined.

Lemma main_check_never_launches_witness :
  run_app.check check_args = true
  ∧ ∃ code environ' w',
      run_app.main check_args ∅ empty_world
      = (Raises (run_app.SystemExit code), environ', w')
      ∧ (code = 0 ∨ code = 1).
Proof.
  split; [reflexivity|].
  destruct (main_check_never_launches check_args ∅ empty_world eq_refl)
    as (code & environ' & w' & Hmain & Hcode & _).
  exact (ex_intro _ code (ex_intro _ environ' (ex_intro _ w'
           (conj Hmain Hcode)))).
Defined.

Lemma main_launches_after_checks_witness :
  run_app.main ollama_args ∅ empty_world
  = (Returns tt, run_app.set_environment ollama_args ∅, empty_world)
  ∧ run_app.check ollama_args = false.
Proof.
  assert (run_app.main ollama_args ∅ empty_world
          = (Returns tt, run_app.set_environment ollama_args ∅, empty_world))
    as Hmain by reflexivity.
  split; [exact Hmain|].
  exact (proj1 (main_launches_after_checks _ _ _ _ _ Hmain)).
Defined.
End MoreSamples.

Section StrictSamples.
Import RefStrict.

Lemma failing_file_aborts_batch_witness :
  DocumentProcessor.process_multiple_pdfs [Ref.report]
    (RAGChatbot.document_processor bot) Ref.empty_world
  = (Returns [mkDocument "RAG" [("source", "/app/pdfFiles/report.pdf")]],
     after_report.1.2, after_report.2)
  ∧ DocumentProcessor.process_pdf empty_file after_report.1.2 after_report.2
    = (Raises (Ref.error "PdfReadError" "empty file"),
       after_empty.1.2, after_empty.2)
  ∧ RAGChatbot.process_pdfs
      (FileList ([Ref.report] ++ empty_file :: [Ref.notes])) bot
      Ref.empty_world
    = (Returns false,
       RAGChatbot.set_document_processor after_empty.1.2 bot, after_empty.2).
Proof.
  assert (after_report.1.1
          = Returns [mkDocument "RAG" [("source", "/app/pdfFiles/report.pdf")]])
    as Hchunks by reflexivity.
  pose proof (triple_eta after_report) as Hbefore.
  rewrite Hchunks in Hbefore. unfold after_report at 1 in Hbefore.
  assert (after_empty.1.1 = Raises (Ref.error "PdfReadError" "empty file"))
    as Hraises by reflexivity.
  pose proof (triple_eta after_empty) as Hfile.
  rewrite Hraises in Hfile. unfold after_empty at 1 in Hfile.
  split; [exact Hbefore|]. split; [exact Hfile|].
  exact (proj2 (failing_file_aborts_batch [Ref.report] empty_file [Ref.notes]
                  bot Ref.empty_world _ _ _ _ _ _ Hbefore Hfile)).
Defined.
End StrictSamples.

(** ** [app.py] *)
Section AppFacts.
Context `{Config}.
Import app.

(** X19: [initialize_session_state] keeps what the session state holds:
    with a chatbot and messages present it changes nothing and calls no
    library, so a rerun of the page keeps the chatbot and the
    conversation.  When it returns, both entries are present; a new
    chatbot is one that [RAGChatbot()] built, and new messages are the
    empty list.  It raises only when [RAGChatbot()] does, and then adds
    nothing. *)
Theorem initialize_session_state_keeps state w :
  (is_Some (state !! "chatbot") → is_Some (state !! "messages") →
   initialize_session_state state w = (Returns tt, state, w))
  ∧ ∀ r state' w',
      initialize_session_state state w = (r, state', w') →
      match r with
      | Returns _ =>
          is_Some (state' !! "chatbot") ∧ is_Some (state' !! "messages")
          ∧ (∀ name value, state !! name = Some value →
                           state' !! name = Some value)
          ∧ (state !! "chatbot" = None →
             ∃ chatbot,
               construct RAGChatbot.init w = (Returns chatbot, w')
               ∧ state' !! "chatbot" = Some (SChatbot chatbot))
          ∧ (state !! "messages" = None →
             state' !! "messages" = Some (SMessages []))
          ∧ initialize_session_state state' w' = (Returns tt, state', w')
      | Raises e =>
          state' = state
          ∧ state !! "chatbot" = None
          ∧ construct RAGChatbot.init w = (Raises e, w')
      end.
Proof.
  assert (∀ st w0,
            is_Some (st !! "chatbot") → is_Some (st !! "messages") →
            initialize_session_state st w0 = (Returns tt, st, w0)) as Hkept.
  { intros st w0 [c Hc] [m Hm].
    unfold initialize_session_state, SESSION_MESSAGES, bind, get, ret, id.
    destruct (decide (st !! "chatbot" = None)) as [Hnone|_]; [congruence|].
    destruct (decide (st !! "messages" = None)) as [Hnone|_]; [congruence|].
    done. }
  split; [apply Hkept|].
  intros r state' w'.
  unfold initialize_session_state, SESSION_MESSAGES, bind at 1, get, id.
  unfold bind at 1.
  destruct (decide (state !! "chatbot" = None)) as [Hnone|Hsome].
  - unfold bind at 1, call.
    destruct (construct RAGChatbot.init w) as [[chatbot|e] w1] eqn:Einit.
    + unfold assign, bind, get, ret.
      destruct (decide (<["chatbot":=SChatbot chatbot]> state !! "messages"
                        = None)) as [Hmsg|Hmsg];
        intros E; simplify_eq.
      * rewrite lookup_insert_ne in Hmsg by done.
        split; [by simplify_map_eq|]. split; [by simplify_map_eq|].
        split.
        { intros name value Hname.
          rewrite !lookup_insert_ne by congruence. done. }
        split; [intros _; exists chatbot; by simplify_map_eq|].
        split; [intros _; by simplify_map_eq|].
        apply Hkept; by simplify_map_eq.
      * rewrite lookup_insert_ne in Hmsg by done.
        apply not_eq_None_Some in Hmsg.
        split; [by simplify_map_eq|].
        split; [by rewrite lookup_insert_ne|].
        split.
        { intros name value Hname.
          rewrite !lookup_insert_ne by congruence. done. }
        split; [intros _; exists chatbot; by simplify_map_eq|].
        split; [intros Hnomsg; rewrite Hnomsg in Hmsg; by destruct Hmsg|].
        apply Hkept; [by simplify_map_eq|by rewrite lookup_insert_ne].
    + intros E. by simplify_eq.
  - apply not_eq_None_Some in Hsome. unfold ret at 1.
    unfold bind, get, assign, ret.
    destruct (decide (state !! "messages" = None)) as [Hmsg|Hmsg];
      intros E; simplify_eq.
    + split; [by rewrite lookup_insert_ne|]. split; [by simplify_map_eq|].
      split.
      { intros name value Hname.
        rewrite !lookup_insert_ne by congruence. done. }
      split; [intros Hno; rewrite Hno in Hsome; by destruct Hsome|].
      split; [intros _; by simplify_map_eq|].
      apply Hkept; [by rewrite lookup_insert_ne|by simplify_map_eq].
    + apply not_eq_None_Some in Hmsg.
      split; [done|]. split; [done|]. split; [done|].
      split; [intros Hno; rewrite Hno in Hsome; by destruct Hsome|].
      split; [intros Hno; rewrite Hno in Hmsg; by destruct Hmsg|].
      by apply Hkept.
Qed.
End AppFacts.

(** ** A database that refuses deletions *)
Section LockedSamples.
Import RefLocked.


End LockedSamples.
